(** * jupyterlab_doc_reader_extension: the viewer widget, its document model
    and the plugin activation, embedded from the TypeScript sources.

    - [src/widget.ts]  : [DocReaderWidget] (constructor, [_loadDocument],
      [_base64ToBlob], [_showError], [_escapeHtml], [dispose]).
    - the model source : [DocModel].
    - [src/index.ts]   : [FILE_TYPES] and [plugin.activate].

    JavaScript values are a small inductive universe, strings are sequences
    of code units in the range 0..255 (which covers the binary strings that
    [atob] produces and every character that is significant in markup),
    exceptions are an explicit result type, and the browser objects the
    widget touches (elements, the object-URL store, the ready promise) are
    records threaded through the operations.  Console output is left out. *)

From Stdlib Require Import List String Ascii NArith ZArith Lia Bool.
From Stdlib Require Import Strings.Byte DecimalString.
Import ListNotations.
Local Open Scope string_scope.
Set Warnings "-register-all".

(** ** JavaScript values and exceptions *)

Module JS.

(** The values that can flow through the [any]-typed variables of the
    widget: JSON data plus [undefined] and [Error] instances.  An [Error]
    carries its [name] and [message] (not enumerable) and its enumerable own
    properties.  Numbers are the integral ones. *)
Inductive JsVal : Type :=
| JUndefined
| JNull
| JBool (b : bool)
| JNum (n : Z)
| JStr (s : string)
| JArr (items : list JsVal)
| JObj (props : list (string * JsVal))
| JErr (name message : string) (props : list (string * JsVal)).

(** Outcome of an expression or statement: a value, or a thrown value. *)
Inductive Res (A : Type) : Type :=
| Ok (a : A)
| Throw (e : JsVal).
Arguments Ok {A} a.
Arguments Throw {A} e.

Definition bind {A B} (m : Res A) (k : A -> Res B) : Res B :=
  match m with
  | Ok a => k a
  | Throw e => Throw e
  end.

(** [try { body } catch (e) { handler e }] *)
Definition try_catch {A} (body : Res A) (handler : JsVal -> Res A) : Res A :=
  match body with
  | Ok a => Ok a
  | Throw e => handler e
  end.

(** ToBoolean *)
Definition truthy (v : JsVal) : bool :=
  match v with
  | JUndefined | JNull => false
  | JBool b => b
  | JNum n => negb (Z.eqb n 0)
  | JStr s => negb (String.eqb s "")
  | JArr _ | JObj _ | JErr _ _ _ => true
  end.

Fixpoint assoc (k : string) (ps : list (string * JsVal)) : option JsVal :=
  match ps with
  | [] => None
  | (k', v) :: ps' => if String.eqb k k' then Some v else assoc k ps'
  end.

Definition or_undefined (o : option JsVal) : JsVal :=
  match o with
  | Some v => v
  | None => JUndefined
  end.

(** [v[k]] for a value that is neither [undefined] nor [null]; the keys
    read by the widget are plain field names and [length]. *)
Definition get (v : JsVal) (k : string) : JsVal :=
  match v with
  | JObj ps => or_undefined (assoc k ps)
  | JErr n m ps =>
      if String.eqb k "message" then JStr m
      else if String.eqb k "name" then JStr n
      else or_undefined (assoc k ps)
  | JStr s => if String.eqb k "length" then JNum (Z.of_nat (String.length s)) else JUndefined
  | JArr l => if String.eqb k "length" then JNum (Z.of_nat (List.length l)) else JUndefined
  | _ => JUndefined
  end.

Definition nullish (v : JsVal) : bool :=
  match v with
  | JUndefined | JNull => true
  | _ => false
  end.

Definition squote : string := String (ascii_of_nat 39) EmptyString.
Definition dquote : string := String (ascii_of_nat 34) EmptyString.
Definition backslash : string := String (ascii_of_nat 92) EmptyString.

(** The [TypeError] raised by a property read on [undefined] or [null]. *)
Definition type_error (v : JsVal) (k : string) : JsVal :=
  JErr "TypeError"
       ("Cannot read properties of "
          ++ (match v with JNull => "null" | _ => "undefined" end)
          ++ " (reading " ++ squote ++ k ++ squote ++ ")") [].

(** [v.k] *)
Definition member (v : JsVal) (k : string) : Res JsVal :=
  if nullish v then Throw (type_error v k) else Ok (get v k).

(** [v?.k] *)
Definition opt_member (v : JsVal) (k : string) : JsVal :=
  if nullish v then JUndefined else get v k.

Definition string_of_Z (n : Z) : string := NilZero.string_of_int (Z.to_int n).

Fixpoint join (sep : string) (l : list string) : string :=
  match l with
  | [] => ""
  | [s] => s
  | s :: l' => s ++ sep ++ join sep l'
  end.

(** ToString, as applied by template literals and DOM string setters. *)
Fixpoint to_string (v : JsVal) : string :=
  match v with
  | JUndefined => "undefined"
  | JNull => "null"
  | JBool true => "true"
  | JBool false => "false"
  | JNum n => string_of_Z n
  | JStr s => s
  | JArr l =>
      join "," (map (fun x => if nullish x then "" else to_string x) l)
  | JObj _ => "[object Object]"
  | JErr n m _ =>
      if String.eqb n "" then m
      else if String.eqb m "" then n
      else n ++ ": " ++ m
  end.

Definition hex_digit (n : N) : ascii :=
  nth (N.to_nat n) (list_ascii_of_string "0123456789abcdef") "0"%char.

(** QuoteJSONString on one code unit. *)
Definition quote_char (c : ascii) : string :=
  let n := N_of_ascii c in
  if N.eqb n 34 then backslash ++ dquote
  else if N.eqb n 92 then backslash ++ backslash
  else if N.eqb n 8 then backslash ++ "b"
  else if N.eqb n 12 then backslash ++ "f"
  else if N.eqb n 10 then backslash ++ "n"
  else if N.eqb n 13 then backslash ++ "r"
  else if N.eqb n 9 then backslash ++ "t"
  else if N.ltb n 32 then
    backslash ++ "u00" ++ String (hex_digit (n / 16)) (String (hex_digit (n mod 16)) "")
  else String c "".

Definition quote (s : string) : string :=
  dquote ++ concat "" (map quote_char (list_ascii_of_string s)) ++ dquote.

(** [JSON.stringify]; [None] is the result [undefined]. *)
Fixpoint stringify (v : JsVal) : option string :=
  let members (ps : list (string * JsVal)) :=
    flat_map (fun p => match stringify (snd p) with
                       | Some s => [quote (fst p) ++ ":" ++ s]
                       | None => []
                       end) ps in
  match v with
  | JUndefined => None
  | JNull => Some "null"
  | JBool true => Some "true"
  | JBool false => Some "false"
  | JNum n => Some (string_of_Z n)
  | JStr s => Some (quote s)
  | JArr l =>
      Some ("[" ++ join "," (map (fun x => match stringify x with
                                           | Some s => s
                                           | None => "null"
                                           end) l) ++ "]")
  | JObj ps => Some ("{" ++ join "," (members ps) ++ "}")
  | JErr _ _ ps => Some ("{" ++ join "," (members ps) ++ "}")
  end.

(** [String.prototype.startsWith] *)
Definition startsWith (s p : string) : bool := String.prefix p s.

End JS.
Import JS.

Declare Scope js_scope.
Delimit Scope js_scope with js.
Notation "x <- m ;; k" := (bind m (fun x => k))
  (at level 61, m at next level, right associativity) : js_scope.

(** ** Base64: [btoa] and [atob] *)

Module Base64.
Local Open Scope N_scope.

Definition alphabet : list ascii :=
  list_ascii_of_string
    "ABCDEFGHIJKLMNOPQRSTUVWXYZabcdefghijklmnopqrstuvwxyz0123456789+/".

Definition pad : ascii := "="%char.

Definition b64_char (n : N) : ascii := nth (N.to_nat n) alphabet pad.

Fixpoint index_from (i : N) (c : ascii) (l : list ascii) : option N :=
  match l with
  | [] => None
  | x :: l' => if Ascii.eqb c x then Some i else index_from (N.succ i) c l'
  end.

Definition b64_value (c : ascii) : option N := index_from 0 c alphabet.

(** The 6-bit groups of a sequence of code units, three units at a time; a
    final group of one or two units is completed with zero bits. *)
Fixpoint sextets (l : list N) : list N :=
  match l with
  | [] => []
  | [a] => [a / 4; (a mod 4) * 16]
  | [a; b] => [a / 4; (a mod 4) * 16 + b / 16; (b mod 16) * 4]
  | a :: b :: c :: rest =>
      a / 4 :: (a mod 4) * 16 + b / 16 :: (b mod 16) * 4 + c / 64 :: c mod 64
        :: sextets rest
  end.

Definition padding (n : nat) : list ascii :=
  match Nat.modulo n 3%nat with
  | 1%nat => [pad; pad]
  | 2%nat => [pad]
  | _ => []
  end.

(** [btoa]: base64 of a binary string (RFC 4648 alphabet, padded).  Every
    code unit of the embedding is below 256, so the call never throws. *)
Definition btoa (data : string) : string :=
  let units := map N_of_ascii (list_ascii_of_string data) in
  string_of_list_ascii
    (map b64_char (sextets units) ++ padding (List.length units))%list.

Definition is_ascii_whitespace (c : ascii) : bool :=
  let n := N_of_ascii c in
  N.eqb n 9 || N.eqb n 10 || N.eqb n 12 || N.eqb n 13 || N.eqb n 32.

(** Forgiving-base64 decode, step 2: with a length divisible by four, one or
    two trailing [=] are removed. *)
Definition strip_padding (l : list ascii) : list ascii :=
  if Nat.eqb (Nat.modulo (List.length l) 4) 0%nat then
    match rev l with
    | c1 :: c2 :: r =>
        if Ascii.eqb c1 pad then
          if Ascii.eqb c2 pad then rev r else rev (c2 :: r)
        else l
    | [c1] => if Ascii.eqb c1 pad then [] else l
    | [] => l
    end
  else l.

Fixpoint values (l : list ascii) : option (list N) :=
  match l with
  | [] => Some []
  | c :: l' =>
      match b64_value c, values l' with
      | Some v, Some vs => Some (v :: vs)
      | _, _ => None
      end
  end.

(** The bit buffer of the decoder: [buf] holds [nbits] bits; every 24 bits
    are emitted as three bytes, and a remainder of 12 or 18 bits drops its
    last 4 or 2 bits. *)
Fixpoint decode_loop (buf nbits : N) (l : list N) : list ascii :=
  match l with
  | [] =>
      if N.eqb nbits 12 then [ascii_of_N (buf / 16)]
      else if N.eqb nbits 18 then
        [ascii_of_N (buf / 1024); ascii_of_N ((buf / 4) mod 256)]
      else []
  | v :: l' =>
      let buf' := (buf * 64 + v)%N in
      if N.eqb (nbits + 6) 24 then
        ascii_of_N (buf' / 65536) :: ascii_of_N ((buf' / 256) mod 256)
          :: ascii_of_N (buf' mod 256) :: decode_loop 0 0 l'
      else decode_loop buf' (nbits + 6) l'
  end.

Definition invalid_character : JsVal :=
  JErr "InvalidCharacterError"
       "The string to be decoded is not correctly encoded." [].

(** [atob]: forgiving-base64 decode to a binary string; throws an
    [InvalidCharacterError] on malformed input. *)
Definition atob (data : string) : Res string :=
  let d := strip_padding
             (filter (fun c => negb (is_ascii_whitespace c))
                     (list_ascii_of_string data)) in
  if Nat.eqb (Nat.modulo (List.length d) 4) 1%nat then Throw invalid_character
  else
    match values d with
    | None => Throw invalid_character
    | Some vs => Ok (string_of_list_ascii (decode_loop 0 0 vs))
    end.

End Base64.

(** ** Blobs and typed arrays *)

Record Blob : Type := mkBlob
  { blob_bytes : list byte;
    blob_type : string }.


(** Conversion of a number to an element of a [Uint8Array]: modulo 256. *)
Definition to_uint8 (n : N) : byte := byte_of_ascii (ascii_of_N (n mod 256)).

(** [String.prototype.charCodeAt] at every index of the string, in order. *)
Definition char_codes (s : string) : list N :=
  map N_of_ascii (list_ascii_of_string s).

(** widget.ts, [_base64ToBlob]: [atob], one [charCodeAt] per index into
    [byteNumbers], a [Uint8Array] over them, a [Blob] over the array. *)
Definition _base64ToBlob (base64 : string) (contentType : string) : Res Blob :=
  (byteCharacters <- Base64.atob base64 ;;
   let byteNumbers := char_codes byteCharacters in
   let byteArray := map to_uint8 byteNumbers in
   Ok (mkBlob byteArray contentType))%js.

(** ** Elements of the display surface *)

Definition style_attr (css : string) : string :=
  "style=" ++ dquote ++ css ++ dquote.

Definition nbsp : ascii := ascii_of_nat 160.

(** Serialisation of one character of a text node by [innerHTML]. *)
Definition escape_char (c : ascii) : string :=
  if Ascii.eqb c "&" then "&amp;"
  else if Ascii.eqb c nbsp then "&nbsp;"
  else if Ascii.eqb c "<" then "&lt;"
  else if Ascii.eqb c ">" then "&gt;"
  else String c "".

Definition escape_text (s : string) : string :=
  concat "" (map escape_char (list_ascii_of_string s)).

(** The [textContent] setter: [null] and [undefined] clear the element, any
    other value is converted to a string. *)
Definition set_textContent (v : JsVal) : string :=
  if nullish v then "" else to_string v.

(** widget.ts, [_escapeHtml]: a detached [div] receives the text as
    [textContent] and is read back through [innerHTML]. *)
Definition _escapeHtml (text : JsVal) : string :=
  let div_textContent := set_textContent text in
  escape_text div_textContent.

Record IFrame : Type := mkIFrame
  { iframe_className : string;
    iframe_src : string;
    iframe_srcdoc : string;
    iframe_width : string;
    iframe_height : string;
    iframe_border : string;
    iframe_display : string }.

Record ErrorDiv : Type := mkErrorDiv
  { errorDiv_className : string;
    errorDiv_display : string;
    errorDiv_padding : string;
    errorDiv_color : string;
    errorDiv_innerHTML : string }.

Record Embed : Type := mkEmbed
  { embed_src : string;
    embed_type : string;
    embed_width : string;
    embed_height : string;
    embed_border : string }.

(** Children of the widget's node: the two elements the widget keeps a
    field for, or an [embed] element. *)
Inductive Child : Type :=
| ChildErrorDiv
| ChildIFrame
| ChildEmbed (e : Embed).

(** The [PromiseDelegate] behind [ready]. *)
Inductive Ready : Type :=
| Pending
| Resolved
| Rejected (reason : JsVal).

Definition resolve (r : Ready) : Ready :=
  match r with
  | Pending => Resolved
  | _ => r
  end.

Definition reject (r : Ready) (reason : JsVal) : Ready :=
  match r with
  | Pending => Rejected reason
  | _ => r
  end.

(** The document context handed to the widget by the host. *)
Record Context : Type := mkContext
  { path : string;
    localPath : string }.

Record Widget : Type := mkWidget
  { _context : Context;
    classes : list string;
    title_label : string;
    _iframe : IFrame;
    _errorDiv : ErrorDiv;
    node : list Child;
    _ready : Ready;
    isDisposed : bool }.

(** ** The browser and the server connection *)

Record Request : Type := mkRequest
  { req_endPoint : string;
    req_method : string;
    req_body : option string }.

(** What the widget shares with its environment: the object-URL store of
    the page ([created] URLs so far, the [live] ones, the [revoked] ones in
    order) and the requests issued through [requestAPI]. *)
Record Env : Type := mkEnv
  { created : list string;
    live : list (string * Blob);
    revoked : list string;
    requests : list Request }.

Definition env0 : Env := mkEnv [] [] [] [].

(** [URL.createObjectURL]: a fresh URL of scheme [blob:], mapped to the blob
    until it is revoked. *)
Definition createObjectURL (env : Env) (b : Blob) : string * Env :=
  let url := "blob:" ++ string_of_Z (Z.of_nat (List.length (created env))) in
  (url, mkEnv (created env ++ [url]) (live env ++ [(url, b)]) (revoked env)
              (requests env)).

(** [URL.revokeObjectURL] *)
Definition revokeObjectURL (env : Env) (url : string) : Env :=
  mkEnv (created env)
        (filter (fun e => negb (String.eqb (fst e) url)) (live env))
        (revoked env ++ [url]) (requests env).

(** How the promise returned by [requestAPI] settles. *)
Inductive Outcome : Type :=
| Fulfilled (response : JsVal)
| RejectedWith (apiError : JsVal).

(** [requestAPI('convert', { method: 'POST', body })] up to the await. *)
Definition requestAPI (env : Env) (endPoint method : string)
  (body : option string) : Env :=
  mkEnv (created env) (live env) (revoked env)
        (requests env ++ [mkRequest endPoint method body]).
(** The placeholder shown while the conversion is in flight. *)
Definition loading_srcdoc : string :=
  "
        <html>
          <body "
  ++ style_attr "display: flex; justify-content: center; align-items: center; height: 100vh; margin: 0; font-family: sans-serif;"
  ++ ">
            <div "
  ++ style_attr "text-align: center;"
  ++ ">
              <div "
  ++ style_attr "font-size: 18px; margin-bottom: 10px;"
  ++ ">Converting document...</div>
              <div "
  ++ style_attr "font-size: 14px; color: #666;"
  ++ ">Please wait while we process your file</div>
            </div>
          </body>
        </html>
      ".

(** A path line of the debug block; the path is interpolated as it is. *)
Definition requested_path_line (error : JsVal) : string :=
  if truthy (get error "file_path") then
      "<div "
      ++ style_attr "margin: 5px 0;"
      ++ "><strong>Requested path:</strong> <code>"
      ++ to_string (get error "file_path")
      ++ "</code></div>"
  else "".

Definition full_path_line (error : JsVal) : string :=
  if truthy (get error "full_path") then
      "<div "
      ++ style_attr "margin: 5px 0;"
      ++ "><strong>Full path:</strong> <code>"
      ++ to_string (get error "full_path")
      ++ "</code></div>"
  else "".

Definition debug_block (error : JsVal) : string :=
  "
        <div "
  ++ style_attr "margin-top: 15px; padding: 10px; background: #f5f5f5; border-radius: 4px;"
  ++ ">
          <strong>Debug Information:</strong><br>
          "
  ++ requested_path_line error
  ++ "
          "
  ++ full_path_line error
  ++ "
        </div>
      ".

Definition traceback_block (traceback : JsVal) : string :=
  "
        <details "
  ++ style_attr "margin-top: 15px;"
  ++ ">
          <summary "
  ++ style_attr "cursor: pointer; font-weight: bold; padding: 10px; background: #f5f5f5; border-radius: 4px;"
  ++ ">
            View Full Traceback
          </summary>
          <pre "
  ++ style_attr "margin: 10px 0; padding: 10px; background: #2d2d2d; color: #f8f8f8; border-radius: 4px; overflow-x: auto; font-size: 12px; line-height: 1.4;"
  ++ ">"
  ++ _escapeHtml traceback
  ++ "</pre>
        </details>
      ".

Definition error_panel (errorType errorMessage : JsVal)
  (debugInfo tracebackSection : string) : string :=
  "
      <div "
  ++ style_attr "padding: 20px; font-family: sans-serif; overflow-y: auto; max-height: 100%;"
  ++ ">
        <h3 "
  ++ style_attr "color: #d32f2f; margin: 0 0 15px 0;"
  ++ ">Failed to load document</h3>

        <div "
  ++ style_attr "margin-bottom: 15px;"
  ++ ">
          <strong>Error Type:</strong> <code>"
  ++ _escapeHtml errorType
  ++ "</code>
        </div>

        <div "
  ++ style_attr "margin-bottom: 15px; padding: 10px; background: #ffebee; border-left: 4px solid #d32f2f; border-radius: 4px;"
  ++ ">
          <strong>Error Message:</strong><br>
          <pre "
  ++ style_attr "margin: 5px 0; white-space: pre-wrap; font-family: monospace;"
  ++ ">"
  ++ _escapeHtml errorMessage
  ++ "</pre>
        </div>

        "
  ++ debugInfo
  ++ "
        "
  ++ tracebackSection
  ++ "

        <div "
  ++ style_attr "margin-top: 20px; padding: 15px; background: #e3f2fd; border-radius: 4px;"
  ++ ">
          <strong>Troubleshooting:</strong>
          <ul "
  ++ style_attr "margin: 10px 0; padding-left: 20px;"
  ++ ">
            <li>Check that mammoth and weasyprint are installed: <code>pip list | grep -E "
  ++ dquote
  ++ "mammoth|weasyprint"
  ++ dquote
  ++ "</code></li>
            <li>Verify the extension is properly installed: <code>jupyter server extension list</code></li>
            <li>Check the file is a valid DOCX, DOC, or RTF document</li>
            <li>Ensure the file is not corrupted or password-protected</li>
            <li>For legacy DOC files, consider converting to DOCX format</li>
            <li>Check JupyterLab logs for more details: <code>/var/log/jupyterlab.log</code></li>
          </ul>
        </div>
      </div>
    ".
(** ** widget.ts: [DocReaderWidget] *)

Definition with_iframe (w : Widget) (f : IFrame) : Widget :=
  mkWidget (_context w) (classes w) (title_label w) f (_errorDiv w) (node w)
           (_ready w) (isDisposed w).

Definition with_errorDiv (w : Widget) (d : ErrorDiv) : Widget :=
  mkWidget (_context w) (classes w) (title_label w) (_iframe w) d (node w)
           (_ready w) (isDisposed w).

Definition with_node (w : Widget) (n : list Child) : Widget :=
  mkWidget (_context w) (classes w) (title_label w) (_iframe w) (_errorDiv w) n
           (_ready w) (isDisposed w).

Definition with_ready (w : Widget) (r : Ready) : Widget :=
  mkWidget (_context w) (classes w) (title_label w) (_iframe w) (_errorDiv w)
           (node w) r (isDisposed w).

Definition iframe_set_srcdoc (f : IFrame) (s : string) : IFrame :=
  mkIFrame (iframe_className f) (iframe_src f) s (iframe_width f)
           (iframe_height f) (iframe_border f) (iframe_display f).

Definition iframe_set_display (f : IFrame) (s : string) : IFrame :=
  mkIFrame (iframe_className f) (iframe_src f) (iframe_srcdoc f)
           (iframe_width f) (iframe_height f) (iframe_border f) s.

Definition errorDiv_set_display (d : ErrorDiv) (s : string) : ErrorDiv :=
  mkErrorDiv (errorDiv_className d) s (errorDiv_padding d) (errorDiv_color d)
             (errorDiv_innerHTML d).

Definition errorDiv_set_innerHTML (d : ErrorDiv) (s : string) : ErrorDiv :=
  mkErrorDiv (errorDiv_className d) (errorDiv_display d) (errorDiv_padding d)
             (errorDiv_color d) s.

Definition is_string (v : JsVal) : bool :=
  match v with
  | JStr _ => true
  | _ => false
  end.

(** The four locals of [_showError] after the extraction of the details. *)
Definition errorMessage_of (error : JsVal) : JsVal :=
  if truthy (opt_member error "error") then get error "error"
  else if truthy (opt_member error "message") then get error "message"
  else if is_string error then error
  else match stringify error with
       | Some s => JStr s
       | None => JUndefined
       end.

Definition errorType_of (error : JsVal) : JsVal :=
  if truthy (opt_member error "error_type") then get error "error_type"
  else JStr "Error".

Definition traceback_of (error : JsVal) : JsVal :=
  if truthy (opt_member error "traceback") then get error "traceback"
  else JStr "".

Definition debugInfo_of (error : JsVal) : string :=
  if truthy (opt_member error "file_path") || truthy (opt_member error "full_path")
  then debug_block error
  else "".

Definition tracebackSection_of (traceback : JsVal) : string :=
  if truthy traceback then traceback_block traceback else "".

(** [_showError]: the iframe is hidden, the error element is shown and
    receives the panel as markup. *)
Definition _showError (w : Widget) (error : JsVal) : Widget :=
  let w := with_iframe w (iframe_set_display (_iframe w) "none") in
  let w := with_errorDiv w (errorDiv_set_display (_errorDiv w) "block") in
  let errorMessage := errorMessage_of error in
  let errorType := errorType_of error in
  let traceback := traceback_of error in
  let debugInfo := debugInfo_of error in
  let tracebackSection := tracebackSection_of traceback in
  with_errorDiv w
    (errorDiv_set_innerHTML (_errorDiv w)
       (error_panel errorType errorMessage debugInfo tracebackSection)).

(** The base class [dispose] of the widget toolkit: the widget is flagged
    as disposed. *)
Definition Widget_dispose (w : Widget) : Widget :=
  mkWidget (_context w) (classes w) (title_label w) (_iframe w) (_errorDiv w)
           (node w) (_ready w) true.

(** [dispose] *)
Definition dispose (w : Widget) (env : Env) : Widget * Env :=
  if isDisposed w then (w, env)
  else
    let env :=
      if startsWith (iframe_src (_iframe w)) "blob:"
      then revokeObjectURL env (iframe_src (_iframe w))
      else env in
    (Widget_dispose w, env).

Section Load.

(** [JSON.parse], a service of the platform: the parsed value, or a thrown
    [SyntaxError]. *)
Variable JSON_parse : string -> Res JsVal.

(** [_loadDocument] up to its suspension on the request. *)
Definition _loadDocument_request (w : Widget) (env : Env) : Widget * Env :=
  let path := path (_context w) in
  let w := with_iframe w (iframe_set_srcdoc (_iframe w) loading_srcdoc) in
  (w, requestAPI env "convert" "POST" (stringify (JObj [("path", JStr path)]))).

(** The inner [try]/[catch] around the awaited request.  The [throw] of the
    parsed error data stands inside the [try] block whose [catch] rethrows
    the original error. *)
Definition await_response (settled : Outcome) : Res JsVal :=
  match settled with
  | Fulfilled response => Ok response
  | RejectedWith apiError =>
      if truthy (opt_member apiError "message") then
        try_catch
          (message <- member apiError "message" ;;
           errorData <- JSON_parse (to_string message) ;;
           Throw errorData)%js
          (fun _ => Throw apiError)
      else Throw apiError
  end.

(** The branch on the response: the PDF is decoded, given an object URL and
    shown in an [embed] that replaces the children of the node; any other
    response is thrown. *)
Definition show_response (w : Widget) (env : Env) (response : JsVal)
  : Res (Widget * Env) :=
  (success <- member response "success" ;;
   if truthy success && truthy (get response "pdf_data") then
     pdfBlob <- _base64ToBlob (to_string (get response "pdf_data"))
                              "application/pdf" ;;
     let (pdfUrl, env) := createObjectURL env pdfBlob in
     let w := with_iframe w (iframe_set_srcdoc (_iframe w) "") in
     let w := with_iframe w (iframe_set_display (_iframe w) "none") in
     let embed := mkEmbed pdfUrl "application/pdf" "100%" "100%" "none" in
     let w := with_node w [ChildEmbed embed] in
     Ok (with_ready w (resolve (_ready w)), env)
   else Throw response)%js.

(** [_loadDocument] from the settlement of the request to its end. *)
Definition _loadDocument_resume (w : Widget) (env : Env) (settled : Outcome)
  : Res (Widget * Env) :=
  try_catch
    (response <- await_response settled ;;
     show_response w env response)%js
    (fun error =>
       let w := _showError w error in
       Ok (with_ready w (reject (_ready w) error), env)).

(** [_loadDocument] as a whole, given how its request settles. *)
Definition _loadDocument (w : Widget) (env : Env) (settled : Outcome)
  : Res (Widget * Env) :=
  let (w, env) := _loadDocument_request w env in
  _loadDocument_resume w env settled.

(** The constructor: the two elements are created and appended, and the
    load is started. *)
Definition DocReaderWidget_new (context : Context) (env : Env) : Widget * Env :=
  let iframe := mkIFrame "jp-DocReaderWidget-iframe" "" "" "100%" "100%" "none" "" in
  let errorDiv := mkErrorDiv "jp-DocReaderWidget-error" "none" "20px" "#d32f2f" "" in
  let w := mkWidget context ["jp-DocReaderWidget"] (localPath context) iframe
                    errorDiv [ChildErrorDiv; ChildIFrame] Pending false in
  _loadDocument_request w env.

(** ** The life of one widget *)

(** What the host and the network can do to an open widget. *)
Inductive Event : Type :=
| Settle (settled : Outcome)
| Dispose
| GetReady.

(** A widget in its environment; [awaiting] holds while the load is
    suspended on its request, [uncaught] collects what would escape the
    load. *)
Record Sys : Type := mkSys
  { sys_widget : Widget;
    sys_env : Env;
    awaiting : bool;
    uncaught : list JsVal }.

Definition open (context : Context) (env : Env) : Sys :=
  let (w, env) := DocReaderWidget_new context env in
  mkSys w env true [].

Definition step (s : Sys) (e : Event) : Sys :=
  match e with
  | Settle settled =>
      if awaiting s then
        match _loadDocument_resume (sys_widget s) (sys_env s) settled with
        | Ok (w, env) => mkSys w env false (uncaught s)
        | Throw err => mkSys (sys_widget s) (sys_env s) false (uncaught s ++ [err])
        end
      else s
  | Dispose =>
      let (w, env) := dispose (sys_widget s) (sys_env s) in
      mkSys w env (awaiting s) (uncaught s)
  | GetReady => s
  end.

Definition run (s : Sys) (es : list Event) : Sys := fold_left step es s.

End Load.

(** The states of the viewer, read off the ready promise. *)
Inductive Phase : Type :=
| Loading
| Rendered
| Failed.

Definition phase (w : Widget) : Phase :=
  match _ready w with
  | Pending => Loading
  | Resolved => Rendered
  | Rejected _ => Failed
  end.

(** ** model.ts: [DocModel] *)

Module Model.

(** The two signals of the model. *)
Inductive SignalId : Type :=
| contentChanged
| stateChanged.

(** The fields of an instance; all of them are [readonly]. *)
Record DocModel : Type := mkDocModel
  { defaultKernelName : string;
    defaultKernelLanguage : string;
    collaborative : bool;
    sharedModel : JsVal }.

Definition DocModel_new : DocModel := mkDocModel "" "" false JNull.

Definition dirty (m : DocModel) : bool := false.
Definition readOnly (m : DocModel) : bool := true.
Definition isDisposed (m : DocModel) : bool := false.

(** A method call leaves a model and the signals it emitted, in order. *)
Definition Effect : Type := (DocModel * list SignalId)%type.

Definition toString (m : DocModel) : string * Effect := ("", (m, [])).
Definition fromString (m : DocModel) (value : string) : Effect := (m, []).
Definition toJSON (m : DocModel) : JsVal * Effect := (JObj [], (m, [])).
Definition fromJSON (m : DocModel) (value : JsVal) : Effect := (m, []).
Definition initialize (m : DocModel) : Effect := (m, []).
Definition dispose (m : DocModel) : Effect := (m, []).

(** The calls a client of the model can make. *)
Inductive Call : Type :=
| CallToString
| CallFromString (value : string)
| CallToJSON
| CallFromJSON (value : JsVal)
| CallInitialize
| CallDispose
| CallGetDirty
| CallGetReadOnly
| CallGetIsDisposed.

Definition perform (m : DocModel) (c : Call) : Effect :=
  match c with
  | CallToString => snd (toString m)
  | CallFromString value => fromString m value
  | CallToJSON => snd (toJSON m)
  | CallFromJSON value => fromJSON m value
  | CallInitialize => initialize m
  | CallDispose => dispose m
  | CallGetDirty | CallGetReadOnly | CallGetIsDisposed => (m, [])
  end.

(** A sequence of calls: the final model and every signal emitted. *)
Fixpoint perform_all (m : DocModel) (cs : list Call) : Effect :=
  match cs with
  | [] => (m, [])
  | c :: cs' =>
      let (m1, sigs1) := perform m c in
      let (m2, sigs2) := perform_all m1 cs' in
      (m2, (sigs1 ++ sigs2)%list)
  end.

End Model.

(** ** index.ts: file types and plugin activation *)

Module Plugin.

Record FileType : Type := mkFileType
  { ft_name : string;
    ft_displayName : string;
    ft_extensions : list string;
    ft_mimeTypes : list string;
    ft_contentType : string;
    ft_fileFormat : string }.

Definition FILE_TYPES : list FileType :=
  [ mkFileType "docx" "Word Document (DOCX)" [".docx"]
      ["application/vnd.openxmlformats-officedocument.wordprocessingml.document"]
      "file" "base64";
    mkFileType "doc" "Word Document (DOC)" [".doc"] ["application/msword"]
      "file" "base64";
    mkFileType "rtf" "Rich Text Format" [".rtf"] ["application/rtf"; "text/rtf"]
      "file" "base64" ].

(** The object literal handed to [addFileType]. *)
Record FileTypeOptions : Type := mkFileTypeOptions
  { opt_name : string;
    opt_displayName : string;
    opt_extensions : list string;
    opt_mimeTypes : list string }.

(** The options of the widget factory. *)
Record FactoryOptions : Type := mkFactoryOptions
  { fac_name : string;
    fac_modelName : string;
    fac_fileTypes : list string;
    fac_defaultFor : list string;
    fac_readOnly : bool }.

(** The part of the host's document registry that activation uses; either
    method may throw. *)
Class DocRegistry (R : Type) : Type :=
  { addFileType : R -> FileTypeOptions -> Res R;
    addWidgetFactory : R -> FactoryOptions -> Res R }.

(** The body of the [forEach]: a failed registration is caught and the
    registry is left as it was. *)
Definition register_file_type {R} `{DocRegistry R} (docRegistry : R)
  (fileType : FileType) : R :=
  match addFileType docRegistry
          (mkFileTypeOptions (ft_name fileType) (ft_displayName fileType)
                             (ft_extensions fileType) (ft_mimeTypes fileType)) with
  | Ok r => r
  | Throw _ => docRegistry
  end.

Definition factory_options : FactoryOptions :=
  mkFactoryOptions "Document Reader" "base64" (map ft_name FILE_TYPES)
                   (map ft_name FILE_TYPES) true.

(** [plugin.activate] on the registry of the application. *)
Definition activate {R} `{DocRegistry R} (docRegistry : R) : Res R :=
  let docRegistry := fold_left register_file_type FILE_TYPES docRegistry in
  addWidgetFactory docRegistry factory_options.

(** A registry that records what is registered, in order, and accepts every
    registration. *)
Record Registry : Type := mkRegistry
  { fileTypes : list FileTypeOptions;
    widgetFactories : list FactoryOptions }.

#[global] Instance Registry_ops : DocRegistry Registry :=
  { addFileType r o := Ok (mkRegistry (fileTypes r ++ [o])%list (widgetFactories r));
    addWidgetFactory r f := Ok (mkRegistry (fileTypes r) (widgetFactories r ++ [f])%list) }.

(** The factories registered as default viewer of a file type. *)
Definition default_viewers (r : Registry) (fileType : string) : list FactoryOptions :=
  filter (fun f => existsb (String.eqb fileType) (fac_defaultFor f)
                   && existsb (String.eqb fileType) (fac_fileTypes f))
         (widgetFactories r).

End Plugin.

(** ** Notions used in the statements *)

(** [String.prototype.includes] *)
Fixpoint includes (s sub : string) : bool :=
  String.prefix sub s
  || match s with
     | EmptyString => false
     | String _ s' => includes s' sub
     end.

(** The value a settlement carries. *)
Definition settled_value (settled : Outcome) : JsVal :=
  match settled with
  | Fulfilled response => response
  | RejectedWith apiError => apiError
  end.

(** The widget after the [catch] of [_loadDocument] has handled [error]. *)
Definition failed_with (w : Widget) (error : JsVal) : Widget :=
  with_ready (_showError w error) (reject (_ready w) error).

(** The widget and the environment after the PDF in [pdfBlob] is shown. *)
Definition rendered_with (w : Widget) (env : Env) (pdfBlob : Blob) : Widget * Env :=
  let (pdfUrl, env) := createObjectURL env pdfBlob in
  let w := with_iframe w (iframe_set_srcdoc (_iframe w) "") in
  let w := with_iframe w (iframe_set_display (_iframe w) "none") in
  let w := with_node w [ChildEmbed (mkEmbed pdfUrl "application/pdf" "100%" "100%" "none")] in
  (with_ready w (resolve (_ready w)), env).



(** Scenario B: the failure envelope for [missing.docx], its JSON text, a
    [JSON.parse] that reads that text, and the error a rejected request
    carries when the envelope arrives with a non-2xx status. *)
Definition missing_docx_failure : JsVal :=
  JObj [("success", JBool false);
        ("error", JStr "File not found: missing.docx");
        ("error_type", JStr "PathNotFound");
        ("file_path", JStr "missing.docx")].

Definition missing_docx_body : string :=
  match stringify missing_docx_failure with
  | Some s => s
  | None => ""
  end.

Definition parse_missing_docx (text : string) : Res JsVal :=
  if String.eqb text missing_docx_body then Ok missing_docx_failure
  else Throw (JErr "SyntaxError" "Unexpected token" []).

Definition missing_docx_rejection : JsVal := JErr "Error" missing_docx_body [].

Definition missing_docx_context : Context := mkContext "missing.docx" "missing.docx".

(** Scenario A: a successful envelope whose payload is the base64 of the
    five bytes [%PDF-]. *)
Definition notes_docx_response : JsVal :=
  JObj [("success", JBool true);
        ("pdf_data", JStr "JVBERi0=");
        ("filename", JStr "notes.pdf")].

Definition notes_docx_context : Context := mkContext "notes.docx" "notes.docx".

(** A failure envelope whose requested path carries markup. *)
Definition markup_path_failure : JsVal :=
  JObj [("success", JBool false);
        ("error", JStr "File not found");
        ("error_type", JStr "PathNotFound");
        ("file_path", JStr "<img src=x onerror=alert(1)>")].

(** The one request a widget issues for its document. *)
Definition conversion_request (context : Context) : Request :=
  mkRequest "convert" "POST" (stringify (JObj [("path", JStr (path context))])).

(** What holds of a widget opened on [context] in [env] at every point of
    its life. *)
Definition run_invariant (context : Context) (env : Env) (s : Sys) : Prop :=
  iframe_src (_iframe (sys_widget s)) = ""
  /\ revoked (sys_env s) = revoked env
  /\ requests (sys_env s) = (requests env ++ [conversion_request context])%list
  /\ (phase (sys_widget s) <> Rendered -> created (sys_env s) = created env)
  /\ (awaiting s = true -> _ready (sys_widget s) = Pending)
  /\ uncaught s = [].

(** ** widget.ts: the [ready] accessor and [DocReaderFactory] *)

(** [get ready]: the promise of the delegate. *)
Definition ready (w : Widget) : Ready := _ready w.




(** ** The unit tests: extension of a path *)

Module Tests.

(** [String.prototype.split] on a separator of one character. *)
Fixpoint split (sep : ascii) (s : string) : list string :=
  match s with
  | EmptyString => [EmptyString]
  | String c s' =>
      if Ascii.eqb c sep then EmptyString :: split sep s'
      else match split sep s' with
           | x :: xs => String c x :: xs
           | [] => [String c EmptyString]
           end
  end.

(** [Array.prototype.pop]: the last element, [None] on an empty array. *)
Fixpoint pop (l : list string) : option string :=
  match l with
  | [] => None
  | [x] => Some x
  | _ :: l' => pop l'
  end.

(** Lower case of one code unit below 256: [A]-[Z] and the upper-case
    letters of Latin-1 (0xC0-0xDE without 0xD7) move up by 32. *)
Definition lower_char (c : ascii) : ascii :=
  let n := N_of_ascii c in
  if (N.leb 65 n && N.leb n 90)
     || (N.leb 192 n && N.leb n 222 && negb (N.eqb n 215))
  then ascii_of_N (n + 32)
  else c.

(** [String.prototype.toLowerCase] *)
Fixpoint toLowerCase (s : string) : string :=
  match s with
  | EmptyString => EmptyString
  | String c s' => String (lower_char c) (toLowerCase s')
  end.

(** [path.split('.').pop()?.toLowerCase()]; [None] is [undefined]. *)
Definition extension (path : string) : option string :=
  option_map toLowerCase (pop (split "." path)).

End Tests.

(** ** Further notions used in the statements *)

(** The angle brackets of a text, in order: its markup skeleton. *)
Definition angle_brackets (s : string) : list ascii :=
  filter (fun c => Ascii.eqb c "<" || Ascii.eqb c ">") (list_ascii_of_string s).

(** A character that [innerHTML] writes as an entity. *)
Definition is_special (c : ascii) : bool :=
  Ascii.eqb c "&" || Ascii.eqb c nbsp || Ascii.eqb c "<" || Ascii.eqb c ">".

(** A character that base64 text may hold: alphabet, padding, whitespace. *)
Definition base64_text_char (c : ascii) : bool :=
  match Base64.b64_value c with
  | Some _ => true
  | None => Ascii.eqb c Base64.pad || Base64.is_ascii_whitespace c
  end.

(** The success envelope for a PDF given by its bytes. *)
Definition pdf_response (bytes : list byte) (filename : string) : JsVal :=
  JObj [("success", JBool true);
        ("pdf_data", JStr (Base64.btoa (string_of_list_byte bytes)));
        ("filename", JStr filename)].

(** Two widgets that differ at most in the disposed flag. *)
Definition same_display (w1 w2 : Widget) : Prop :=
  _context w1 = _context w2 /\ classes w1 = classes w2
  /\ title_label w1 = title_label w2 /\ _iframe w1 = _iframe w2
  /\ _errorDiv w1 = _errorDiv w2 /\ node w1 = node w2 /\ _ready w1 = _ready w2.

(** * Properties *)

(** ** Base64 *)

Module Base64Facts.
Import Base64.
Local Open Scope N_scope.

Ltac euclid := zify; Z.to_euclidean_division_equations; lia.

(** Induction over a list three elements at a time, as [sextets] recurses. *)
Lemma list_ind3 (A : Type) (P : list A -> Prop) :
  P [] -> (forall a, P [a]) -> (forall a b, P [a; b]) ->
  (forall a b c l, P l -> P (a :: b :: c :: l)) ->
  forall l, P l.
Proof.
  intros H0 H1 H2 H3 l.
  enough (P l /\ (forall a, P (a :: l)) /\ (forall a b, P (a :: b :: l))) by tauto.
  induction l as [|x l [IH0 [IH1 IH2]]]; repeat split; auto.
Qed.

Lemma alphabet_char (n : N) :
  n < 64 ->
  b64_value (b64_char n) = Some n
  /\ Ascii.eqb (b64_char n) pad = false
  /\ is_ascii_whitespace (b64_char n) = false.
Proof.
  intros Hn.
  rewrite <- (N2Nat.id n).
  assert (Hk : (N.to_nat n < 64)%nat) by lia.
  revert Hk. generalize (N.to_nat n) as k. intros k Hk.
  do 64 (destruct k as [|k]; [vm_compute; auto|]).
  lia.
Qed.

Lemma sextets_bounded (l : list N) :
  Forall (fun a => a < 256) l -> Forall (fun v => v < 64) (sextets l).
Proof.
  induction l as [| a | a b | a b c l IH] using list_ind3; intros H; cbn [sextets].
  - constructor.
  - inversion_clear H. repeat constructor; euclid.
  - inversion_clear H as [|? ? Ha H']. inversion_clear H'.
    repeat constructor; euclid.
  - inversion_clear H as [|? ? Ha H']. inversion_clear H' as [|? ? Hb H''].
    inversion_clear H'' as [|? ? Hc Hl].
    repeat (constructor; [euclid|]). auto.
Qed.

Lemma values_chars (vs : list N) :
  Forall (fun v => v < 64) vs -> values (map b64_char vs) = Some vs.
Proof.
  induction 1 as [|v vs Hv _ IH]; cbn [map values]; [reflexivity|].
  destruct (alphabet_char v Hv) as [-> _]. now rewrite IH.
Qed.

Lemma chars_no_whitespace (vs : list N) :
  Forall (fun v => v < 64) vs ->
  filter (fun c => negb (is_ascii_whitespace c)) (map b64_char vs) = map b64_char vs.
Proof.
  induction 1 as [|v vs Hv _ IH]; cbn [map filter]; [reflexivity|].
  destruct (alphabet_char v Hv) as [_ [_ ->]]. cbn. now rewrite IH.
Qed.

Lemma padding_cases (n : nat) :
  padding n = [] \/ padding n = [pad] \/ padding n = [pad; pad].
Proof.
  unfold padding. destruct (Nat.modulo n 3) as [|[|[|k]]]; auto.
Qed.

Lemma padding_no_whitespace (n : nat) :
  filter (fun c => negb (is_ascii_whitespace c)) (padding n) = padding n.
Proof.
  destruct (padding_cases n) as [-> | [-> | ->]]; reflexivity.
Qed.

Lemma strip_padding_chars (cs p : list ascii) :
  Forall (fun c => Ascii.eqb c pad = false) cs ->
  p = [] \/ p = [pad] \/ p = [pad; pad] ->
  Nat.modulo (List.length (cs ++ p)) 4 = 0%nat ->
  strip_padding (cs ++ p) = cs.
Proof.
  intros Hcs Hp Hlen. unfold strip_padding. rewrite Hlen. cbn [Nat.eqb].
  assert (Hrev : Forall (fun c => Ascii.eqb c pad = false) (rev cs))
    by now apply Forall_rev.
  destruct Hp as [-> | [-> | ->]]; rewrite ?app_nil_r, ?rev_app_distr; cbn [rev app].
  - destruct (rev cs) as [|c1 [|c2 r]] eqn:E; [reflexivity| |];
      inversion_clear Hrev as [|? ? H1 _]; now rewrite H1.
  - destruct (rev cs) as [|c2 r] eqn:E.
    + apply (f_equal (@rev ascii)) in E. rewrite rev_involutive in E. subst cs.
      discriminate Hlen.
    + cbn [app]. change (Ascii.eqb pad pad) with true. cbn iota.
      inversion_clear Hrev as [|? ? H2 _]. rewrite H2.
      change (rev (c2 :: r) = cs). rewrite <- E. apply rev_involutive.
  - cbn [app]. change (Ascii.eqb pad pad) with true. cbn iota.
    apply rev_involutive.
Qed.

Lemma sextets_length (l : list N) :
  Nat.modulo (List.length (sextets l) + List.length (padding (List.length l))) 4 = 0%nat
  /\ Nat.modulo (List.length (sextets l)) 4 <> 1%nat.
Proof.
  induction l as [| a | a b | a b c l [IH1 IH2]] using list_ind3;
    try (split; [reflexivity | discriminate]).
  cbn [sextets List.length].
  assert (Hp : padding (S (S (S (List.length l)))) = padding (List.length l)).
  { unfold padding.
    replace (S (S (S (List.length l)))) with (List.length l + 1 * 3)%nat by lia.
    now rewrite Nat.Div0.mod_add. }
  rewrite Hp. split.
  - replace (S (S (S (S (List.length (sextets l))))) + List.length (padding (List.length l)))%nat
      with (List.length (sextets l) + List.length (padding (List.length l)) + 1 * 4)%nat by lia.
    now rewrite Nat.Div0.mod_add.
  - replace (S (S (S (S (List.length (sextets l))))))
      with (List.length (sextets l) + 1 * 4)%nat by lia.
    now rewrite Nat.Div0.mod_add.
Qed.

Lemma decode_sextets (l : list N) :
  Forall (fun a => a < 256) l ->
  decode_loop 0 0 (sextets l) = map ascii_of_N l.
Proof.
  induction l as [| a | a b | a b c l IH] using list_ind3; intros H.
  - reflexivity.
  - inversion_clear H as [|? ? Ha _]. cbn. do 2 f_equal. euclid.
  - inversion_clear H as [|? ? Ha H']. inversion_clear H' as [|? ? Hb _].
    cbn. f_equal; [|f_equal]; f_equal; euclid.
  - inversion_clear H as [|? ? Ha H']. inversion_clear H' as [|? ? Hb H''].
    inversion_clear H'' as [|? ? Hc Hl].
    cbn [sextets decode_loop map N.add N.eqb Pos.add Pos.succ Pos.eqb].
    cbn. rewrite (IH Hl).
    f_equal; [|f_equal; [|f_equal]]; f_equal; euclid.
Qed.

Lemma atob_btoa (s : string) : atob (btoa s) = Ok s.
Proof.
  unfold atob, btoa. rewrite list_ascii_of_string_of_list_ascii.
  set (l := map N_of_ascii (list_ascii_of_string s)).
  assert (Hl : Forall (fun a => a < 256) l).
  { apply Forall_forall. intros x Hx. apply in_map_iff in Hx.
    destruct Hx as [c [<- _]]. apply N_ascii_bounded. }
  pose proof (sextets_bounded l Hl) as Hv.
  destruct (sextets_length l) as [Hm Hm1].
  rewrite filter_app, chars_no_whitespace, padding_no_whitespace by assumption.
  rewrite strip_padding_chars.
  - rewrite length_map.
    destruct (Nat.eqb_spec (Nat.modulo (List.length (sextets l)) 4) 1); [contradiction|].
    rewrite values_chars, decode_sextets by assumption.
    unfold l. rewrite map_map.
    rewrite (map_ext _ (fun c => c)) by apply ascii_N_embedding.
    rewrite map_id. now rewrite string_of_list_ascii_of_string.
  - apply Forall_forall. intros c Hc. apply in_map_iff in Hc.
    destruct Hc as [v [<- Hin]].
    rewrite Forall_forall in Hv. now destruct (alphabet_char v (Hv v Hin)) as [_ [? _]].
  - apply padding_cases.
  - now rewrite length_app, length_map.
Qed.

End Base64Facts.

Lemma to_uint8_code (c : ascii) : to_uint8 (N_of_ascii c) = byte_of_ascii c.
Proof.
  unfold to_uint8. rewrite N.mod_small by apply N_ascii_bounded.
  now rewrite ascii_N_embedding.
Qed.

(** ** The widget *)

Lemma base64ToBlob_throws (s ct : string) (e : JsVal) :
  _base64ToBlob s ct = Throw e -> e = Base64.invalid_character.
Proof.
  unfold _base64ToBlob, Base64.atob.
  destruct (Nat.eqb _ 1); cbn; [congruence|].
  destruct (Base64.values _); cbn; congruence.
Qed.


Lemma resolve_settled (r : Ready) : r <> Pending -> resolve r = r.
Proof. destruct r; cbn; congruence. Qed.

Lemma reject_settled (r : Ready) (e : JsVal) : r <> Pending -> reject r e = r.
Proof. destruct r; cbn; congruence. Qed.

Lemma phase_loading (w : Widget) : phase w = Loading <-> _ready w = Pending.
Proof. unfold phase. destruct (_ready w); split; congruence. Qed.




Lemma chars_of_append (s t : string) :
  list_ascii_of_string (s ++ t)
  = (list_ascii_of_string s ++ list_ascii_of_string t)%list.
Proof. induction s as [|c s IH]; cbn; [reflexivity | now rewrite IH]. Qed.

(** What [_escapeHtml] returns holds no angle bracket. *)
Lemma escape_text_no_angle_bracket (s : string) :
  Forall (fun c => c <> "<"%char /\ c <> ">"%char)
         (list_ascii_of_string (escape_text s)).
Proof.
  unfold escape_text. induction (list_ascii_of_string s) as [|c cs IH];
    cbn [map concat]; [constructor|].
  assert (Hc : Forall (fun c => c <> "<"%char /\ c <> ">"%char)
                      (list_ascii_of_string (escape_char c))).
  { unfold escape_char.
    destruct (Ascii.eqb_spec c "&"); [repeat constructor; discriminate|].
    destruct (Ascii.eqb_spec c nbsp); [repeat constructor; discriminate|].
    destruct (Ascii.eqb_spec c "<"); [repeat constructor; discriminate|].
    destruct (Ascii.eqb_spec c ">"); [repeat constructor; discriminate|].
    repeat constructor; assumption. }
  destruct (map escape_char cs) as [|x xs] eqn:E; [assumption|].
  rewrite <- E in *. rewrite chars_of_append. apply Forall_app. split; [assumption|].
  replace (concat "" (map escape_char cs)) with ("" ++ concat "" (map escape_char cs))
    in IH by reflexivity.
  exact IH.
Qed.



Section LoadFacts.

Variable JSON_parse : string -> Res JsVal.

Lemma await_response_rejected (apiError : JsVal) :
  await_response JSON_parse (RejectedWith apiError) = Throw apiError.
Proof.
  unfold await_response. destruct (truthy _); [|reflexivity].
  unfold member. destruct (nullish apiError); cbn; [reflexivity|].
  destruct (JSON_parse _); reflexivity.
Qed.

(** The two ways [_loadDocument] ends, with what was thrown in the first. *)
Lemma resume_cases (w : Widget) (env : Env) (settled : Outcome) :
  (exists error,
      _loadDocument_resume JSON_parse w env settled = Ok (failed_with w error, env)
      /\ (error = settled_value settled
          \/ error = Base64.invalid_character
          \/ error = type_error (settled_value settled) "success"))
  \/ (exists response pdfBlob,
         settled = Fulfilled response
         /\ truthy (get response "success") = true
         /\ truthy (get response "pdf_data") = true
         /\ _base64ToBlob (to_string (get response "pdf_data")) "application/pdf"
            = Ok pdfBlob
         /\ _loadDocument_resume JSON_parse w env settled
            = Ok (rendered_with w env pdfBlob)).
Proof.
  unfold _loadDocument_resume. destruct settled as [response | apiError].
  - cbn [await_response bind]. unfold show_response, member.
    destruct (nullish response) eqn:Hn; cbn [bind try_catch].
    + left. eexists. split; [reflexivity|]. auto.
    + destruct (truthy (get response "success")) eqn:Hs;
        destruct (truthy (get response "pdf_data")) eqn:Hp; cbn [andb];
        try (left; eexists; split; [reflexivity | auto]; fail).
      destruct (_base64ToBlob _ _) as [pdfBlob | e] eqn:Hb; cbn [bind try_catch].
      * right. exists response, pdfBlob. repeat split; auto.
      * left. exists e. split; [reflexivity|].
        right. left. eapply base64ToBlob_throws, Hb.
  - rewrite await_response_rejected. cbn [bind try_catch].
    left. eexists. split; [reflexivity|]. auto.
Qed.

Lemma resume_total (w : Widget) (env : Env) (settled : Outcome) :
  exists w' env', _loadDocument_resume JSON_parse w env settled = Ok (w', env').
Proof.
  destruct (resume_cases w env settled) as [[error [H _]] | [r [b [_ [_ [_ [_ H]]]]]]];
    rewrite H; [eauto|]. destruct (rendered_with w env b). eauto.
Qed.


Lemma phase_failed_with (w : Widget) (error : JsVal) :
  _ready w = Pending ->
  phase (failed_with w error) = Failed /\ _ready (failed_with w error) = Rejected error.
Proof. unfold phase, failed_with. cbn. intros ->. cbn. auto. Qed.

Lemma phase_rendered_with (w : Widget) (env : Env) (b : Blob) :
  _ready w = Pending -> phase (fst (rendered_with w env b)) = Rendered.
Proof. unfold phase, rendered_with. cbn. intros ->. reflexivity. Qed.

Lemma phase_settled_failed_with (w : Widget) (error : JsVal) :
  _ready w <> Pending -> phase (failed_with w error) = phase w.
Proof. intros H. unfold phase, failed_with. cbn. now rewrite reject_settled. Qed.

Lemma phase_settled_rendered_with (w : Widget) (env : Env) (b : Blob) :
  _ready w <> Pending -> phase (fst (rendered_with w env b)) = phase w.
Proof. intros H. unfold phase, rendered_with. cbn. now rewrite resolve_settled. Qed.

Lemma dispose_without_blob_src (w : Widget) (env : Env) :
  iframe_src (_iframe w) = "" ->
  dispose w env = (if isDisposed w then w else Widget_dispose w, env).
Proof. unfold dispose. intros ->. now destruct (isDisposed w). Qed.

Lemma dispose_dispose (w w1 : Widget) (env env1 : Env) :
  dispose w env = (w1, env1) -> dispose w1 env1 = (w1, env1).
Proof.
  unfold dispose at 1. destruct (isDisposed w) eqn:Hd; intros [= <- <-].
  - unfold dispose. now rewrite Hd.
  - reflexivity.
Qed.

Lemma step_preserves (context : Context) (env : Env) (s : Sys) (e : Event) :
  run_invariant context env s -> run_invariant context env (step JSON_parse s e).
Proof.
  intros (Hsrc & Hrev & Hreq & Hcre & Haw & Hun).
  destruct e as [settled | |]; cbn [step]; [| |repeat split; assumption].
  - destruct (awaiting s) eqn:Ha; [|repeat split; auto; congruence].
    specialize (Haw eq_refl).
    destruct (resume_cases (sys_widget s) (sys_env s) settled)
      as [[error [H _]] | [r [b [_ [_ [_ [_ H]]]]]]]; rewrite H.
    + repeat split; cbn; auto; try discriminate.
      intros _. apply Hcre. unfold phase. rewrite Haw. discriminate.
    + pose proof (phase_rendered_with (sys_widget s) (sys_env s) b Haw) as Hp.
      destruct (rendered_with (sys_widget s) (sys_env s) b) as [w' env'] eqn:E.
      unfold rendered_with in E. cbn in E. injection E as <- <-.
      repeat split; cbn; auto; try discriminate.
      cbn in Hp. intros Hc. contradiction.
  - rewrite dispose_without_blob_src by assumption.
    repeat split; cbn; auto; destruct (isDisposed (sys_widget s)); auto.
Qed.

Lemma open_invariant (context : Context) (env : Env) :
  run_invariant context env (open context env).
Proof. repeat split; cbn; auto. Qed.

Lemma run_preserves (context : Context) (env : Env) (es : list Event) (s : Sys) :
  run_invariant context env s -> run_invariant context env (run JSON_parse s es).
Proof.
  revert s. induction es as [|e es IH]; intros s H; [exact H|].
  cbn [run fold_left]. apply IH, step_preserves, H.
Qed.

Lemma step_phase_settled (s : Sys) (e : Event) :
  phase (sys_widget s) <> Loading ->
  phase (sys_widget (step JSON_parse s e)) = phase (sys_widget s).
Proof.
  intros Hp. assert (Hr : _ready (sys_widget s) <> Pending).
  { intros Hr. apply Hp. now apply phase_loading. }
  destruct e as [settled | |]; cbn [step]; [| |reflexivity].
  - destruct (awaiting s); [|reflexivity].
    destruct (resume_cases (sys_widget s) (sys_env s) settled)
      as [[error [H _]] | [r [b [_ [_ [_ [_ H]]]]]]]; rewrite H.
    + cbn. now apply phase_settled_failed_with.
    + pose proof (phase_settled_rendered_with (sys_widget s) (sys_env s) b Hr) as Hq.
      destruct (rendered_with (sys_widget s) (sys_env s) b). exact Hq.
  - unfold dispose. destruct (isDisposed (sys_widget s)); reflexivity.
Qed.

Lemma step_dispose_twice (s : Sys) :
  step JSON_parse (step JSON_parse s Dispose) Dispose = step JSON_parse s Dispose.
Proof.
  cbn [step]. destruct (dispose (sys_widget s) (sys_env s)) as [w1 e1] eqn:E.
  cbn [sys_widget sys_env awaiting uncaught].
  now rewrite (dispose_dispose _ _ _ _ E).
Qed.

End LoadFacts.

(** ** The claims *)

(** C1 (the code departs from the claim).  A failure envelope that arrives
    through a rejected request is not preserved: whatever [JSON.parse]
    returns for the message of the rejection, the original error is
    rethrown.  For [missing.docx] the panel then shows the type [Error] and
    no requested-path line, while the same envelope delivered as a response
    shows the line with the path. *)
Theorem rejected_envelope_loses_its_fields :
  (forall (JSON_parse : string -> Res JsVal) (apiError : JsVal),
      await_response JSON_parse (RejectedWith apiError) = Throw apiError)
  /\ (let (w, env) := DocReaderWidget_new missing_docx_context env0 in
      parse_missing_docx missing_docx_body = Ok missing_docx_failure
      /\ _loadDocument_resume parse_missing_docx w env
           (RejectedWith missing_docx_rejection)
         = Ok (failed_with w missing_docx_rejection, env)
      /\ errorType_of missing_docx_rejection = JStr "Error"
      /\ errorMessage_of missing_docx_rejection = JStr missing_docx_body
      /\ debugInfo_of missing_docx_rejection = ""
      /\ includes (errorDiv_innerHTML (_errorDiv (failed_with w missing_docx_rejection)))
           "Requested path:" = false
      /\ _loadDocument_resume parse_missing_docx w env
           (Fulfilled missing_docx_failure)
         = Ok (failed_with w missing_docx_failure, env)
      /\ errorType_of missing_docx_failure = JStr "PathNotFound"
      /\ includes (errorDiv_innerHTML (_errorDiv (failed_with w missing_docx_failure)))
           "<strong>Requested path:</strong> <code>missing.docx</code>" = true).
Proof.
  split; [intros; apply await_response_rejected|].
  vm_compute. repeat split.
Qed.

(** C2 (the code departs from the claim).  No execution of a widget revokes
    an object URL: [dispose] inspects the [src] of the iframe, which is
    never set, while the URL is given to the [embed].  In scenario A the URL
    created for the PDF is still live after the widget is disposed. *)
Theorem object_url_is_never_revoked
  (JSON_parse : string -> Res JsVal) (context : Context) (env : Env)
  (es : list Event) :
  revoked (sys_env (run JSON_parse (open context env) es)) = revoked env
  /\ iframe_src (_iframe (sys_widget (run JSON_parse (open context env) es))) = ""
  /\ (let s := run JSON_parse (open notes_docx_context env0)
                   [Settle (Fulfilled notes_docx_response); Dispose] in
      phase (sys_widget s) = Rendered
      /\ isDisposed (sys_widget s) = true
      /\ node (sys_widget s)
         = [ChildEmbed (mkEmbed "blob:0" "application/pdf" "100%" "100%" "none")]
      /\ created (sys_env s) = ["blob:0"]
      /\ map fst (live (sys_env s)) = ["blob:0"]
      /\ revoked (sys_env s) = []).
Proof.
  destruct (run_preserves JSON_parse context env es _ (open_invariant context env))
    as (Hsrc & Hrev & _).
  repeat split; assumption || reflexivity.
Qed.

(** C3 (the code departs from the claim).  The type, the message and the
    traceback go through [_escapeHtml], the two path values do not: a
    requested path that carries markup reaches the panel as markup. *)
Theorem path_values_are_inserted_unescaped :
  let w := fst (DocReaderWidget_new missing_docx_context env0) in
  let panel := errorDiv_innerHTML (_errorDiv (_showError w markup_path_failure)) in
  includes panel "<code><img src=x onerror=alert(1)></code>" = true
  /\ _escapeHtml (get markup_path_failure "file_path")
     = "&lt;img src=x onerror=alert(1)&gt;"
  /\ includes panel (_escapeHtml (get markup_path_failure "file_path")) = false.
Proof. vm_compute. repeat split. Qed.




(** C6.  A widget issues one conversion request, from its constructor, in
    every execution; and once the viewer has left [Loading] no event brings
    it to another state. *)
Theorem one_conversion_attempt
  (JSON_parse : string -> Res JsVal) (context : Context) (env : Env)
  (es : list Event) :
  let s := run JSON_parse (open context env) es in
  requests (sys_env (open context env))
  = (requests env ++ [conversion_request context])%list
  /\ requests (sys_env s) = (requests env ++ [conversion_request context])%list
  /\ (forall e : Event,
         phase (sys_widget s) <> Loading ->
         phase (sys_widget (step JSON_parse s e)) = phase (sys_widget s)).
Proof.
  destruct (run_preserves JSON_parse context env es _ (open_invariant context env))
    as (_ & _ & Hreq & _).
  repeat split; [assumption|]. intros e. apply step_phase_settled.
Qed.

(** C7.  [dispose] is idempotent: a second call changes nothing.  On a
    widget that is loading or failed no object URL was created, and
    [dispose] leaves the environment as it is. *)
Theorem dispose_is_idempotent
  (JSON_parse : string -> Res JsVal) (context : Context) (env : Env)
  (es : list Event) :
  let s := run JSON_parse (open context env) es in
  (forall (w w1 : Widget) (e e1 : Env),
      dispose w e = (w1, e1) -> isDisposed w1 = true /\ dispose w1 e1 = (w1, e1))
  /\ step JSON_parse (step JSON_parse s Dispose) Dispose = step JSON_parse s Dispose
  /\ (phase (sys_widget s) <> Rendered ->
      created (sys_env s) = created env
      /\ sys_env (step JSON_parse s Dispose) = sys_env s).
Proof.
  cbv zeta.
  destruct (run_preserves JSON_parse context env es _ (open_invariant context env))
    as (Hsrc & _ & _ & Hcre & _).
  split; [|split].
  - intros w w1 e e1 H. split; [|eapply dispose_dispose, H].
    unfold dispose in H. destruct (isDisposed w) eqn:Hd; injection H as <- <-; auto.
  - apply step_dispose_twice.
  - intros Hp. split; [auto|]. cbn [step].
    rewrite dispose_without_blob_src by assumption. reflexivity.
Qed.

(** Scenario D followed by a close: the widget is failed, no URL exists,
    and [dispose] leaves the environment as it was. *)
Example dispose_after_failure :
  let s := run parse_missing_docx (open notes_docx_context env0)
               [Settle (RejectedWith (JErr "Error" "Internal Server Error" []))] in
  phase (sys_widget s) = Failed
  /\ created (sys_env s) = []
  /\ sys_env (step parse_missing_docx s Dispose) = sys_env s
  /\ isDisposed (sys_widget (step parse_missing_docx s Dispose)) = true.
Proof. vm_compute. repeat split. Qed.

(** A close while the request is in flight, then the response: the load
    still runs to its end on the disposed widget. *)
Example dispose_while_loading :
  let s := run parse_missing_docx (open notes_docx_context env0) [Dispose] in
  phase (sys_widget s) = Loading
  /\ sys_env s = sys_env (open notes_docx_context env0)
  /\ phase (sys_widget (step parse_missing_docx s (Settle (Fulfilled notes_docx_response))))
     = Rendered.
Proof. vm_compute. repeat split. Qed.

(** C8.  The model offers no write-back: after any sequence of calls the
    model is the one it was, no signal was emitted, and it is read-only and
    not dirty. *)
Theorem model_is_read_only (m : Model.DocModel) (cs : list Model.Call) :
  Model.perform_all m cs = (m, [])
  /\ Model.readOnly (fst (Model.perform_all m cs)) = true
  /\ Model.dirty (fst (Model.perform_all m cs)) = false
  /\ (forall value, Model.fromString m value = (m, []))
  /\ (forall value, Model.fromJSON m value = (m, []))
  /\ Model.initialize m = (m, []).
Proof.
  assert (H : Model.perform_all m cs = (m, [])).
  { induction cs as [|c cs IH]; [reflexivity|].
    cbn [Model.perform_all].
    assert (Hc : Model.perform m c = (m, [])) by (destruct c; reflexivity).
    rewrite Hc, IH. reflexivity. }
  rewrite H. repeat split.
Qed.

(** C9.  Activation registers the three file types [docx], [doc] and [rtf]
    with their extensions and media types, in that order and nothing else,
    and one factory, [Document Reader], read-only and default for the three
    types. *)
Theorem activation_registers_three_file_types (r : Plugin.Registry) :
  Plugin.activate r
  = Ok (Plugin.mkRegistry
          (Plugin.fileTypes r ++
           [ Plugin.mkFileTypeOptions "docx" "Word Document (DOCX)" [".docx"]
               ["application/vnd.openxmlformats-officedocument.wordprocessingml.document"];
             Plugin.mkFileTypeOptions "doc" "Word Document (DOC)" [".doc"]
               ["application/msword"];
             Plugin.mkFileTypeOptions "rtf" "Rich Text Format" [".rtf"]
               ["application/rtf"; "text/rtf"] ])%list
          (Plugin.widgetFactories r ++
           [ Plugin.mkFactoryOptions "Document Reader" "base64"
               ["docx"; "doc"; "rtf"] ["docx"; "doc"; "rtf"] true ])%list)
  /\ (forall fileType,
         In fileType ["docx"; "doc"; "rtf"] ->
         forall r', Plugin.activate (Plugin.mkRegistry [] []) = Ok r' ->
         Plugin.default_viewers r' fileType
         = [ Plugin.mkFactoryOptions "Document Reader" "base64"
               ["docx"; "doc"; "rtf"] ["docx"; "doc"; "rtf"] true ]).
Proof.
  split.
  - unfold Plugin.activate. cbn. now rewrite <- !app_assoc.
  - intros fileType Hin r' [= <-].
    cbn in Hin. destruct Hin as [<- | [<- | [<- | []]]]; reflexivity.
Qed.



(** * Further properties *)

(** ** [_escapeHtml] *)

Lemma append_empty_r (s : string) : s ++ "" = s.
Proof. induction s as [|c s IH]; cbn; [reflexivity | now rewrite IH]. Qed.

Lemma append_assoc (s t u : string) : (s ++ t) ++ u = s ++ t ++ u.
Proof. induction s as [|c s IH]; cbn; [reflexivity | now rewrite IH]. Qed.

Lemma escape_text_cons (c : ascii) (s : string) :
  escape_text (String c s) = escape_char c ++ escape_text s.
Proof.
  unfold escape_text. cbn [list_ascii_of_string map concat].
  destruct (map escape_char (list_ascii_of_string s)) as [|x xs];
    [now rewrite append_empty_r | reflexivity].
Qed.

Lemma escape_char_cases (c : ascii) :
  (c = "&"%char /\ escape_char c = "&amp;")
  \/ (c = nbsp /\ escape_char c = "&nbsp;")
  \/ (c = "<"%char /\ escape_char c = "&lt;")
  \/ (c = ">"%char /\ escape_char c = "&gt;")
  \/ (is_special c = false /\ escape_char c = String c "").
Proof.
  unfold escape_char, is_special.
  destruct (Ascii.eqb_spec c "&"); [subst; auto|].
  destruct (Ascii.eqb_spec c nbsp); [subst; auto|].
  destruct (Ascii.eqb_spec c "<"); [subst; auto 6|].
  destruct (Ascii.eqb_spec c ">"); [subst; auto 6|].
  auto 8.
Qed.

(** X1.  Escaping loses nothing: two texts with the same escaped form are
    the same text. *)
Theorem escapeHtml_is_injective (s t : string) :
  _escapeHtml (JStr s) = _escapeHtml (JStr t) -> s = t.
Proof.
  unfold _escapeHtml, set_textContent. cbn [nullish to_string].
  revert t. induction s as [|c s IH]; intros [|d t].
  - reflexivity.
  - rewrite escape_text_cons. intros H. exfalso.
    destruct (escape_char_cases d) as [[_ E]|[[_ E]|[[_ E]|[[_ E]|[_ E]]]]];
      rewrite E in H; discriminate H.
  - rewrite escape_text_cons. intros H. exfalso.
    destruct (escape_char_cases c) as [[_ E]|[[_ E]|[[_ E]|[[_ E]|[_ E]]]]];
      rewrite E in H; discriminate H.
  - rewrite !escape_text_cons. intros H.
    destruct (escape_char_cases c) as [[-> E]|[[-> E]|[[-> E]|[[-> E]|[Hc E]]]]];
      destruct (escape_char_cases d) as [[-> F]|[[-> F]|[[-> F]|[[-> F]|[Hd F]]]]];
      rewrite E in H; try rewrite F in H; cbn in H;
      try discriminate H;
      try (injection H as H; f_equal; now apply IH);
      try (injection H as <- H; discriminate Hd);
      try (injection H as -> H; discriminate Hc).
    injection H as -> H. f_equal. now apply IH.
Qed.

Lemma escapeHtml_is_injective_witness :
  "a < b" = "a < b".
Proof.
  exact (escapeHtml_is_injective "a < b" "a < b" eq_refl).
Defined.

(** X2.  A text without [&], [<], [>] and the no-break space is returned as
    it is; quotes in particular are not touched. *)
Theorem escapeHtml_keeps_plain_text (s : string) :
  forallb (fun c => negb (is_special c)) (list_ascii_of_string s) = true ->
  _escapeHtml (JStr s) = s.
Proof.
  unfold _escapeHtml, set_textContent. cbn [nullish to_string].
  induction s as [|c s IH]; [reflexivity|].
  cbn [list_ascii_of_string forallb]. intros H. apply andb_prop in H as [Hc Hs].
  rewrite escape_text_cons, (IH Hs).
  destruct (escape_char_cases c) as [[-> E]|[[-> E]|[[-> E]|[[-> E]|[_ E]]]]];
    try discriminate Hc.
  now rewrite E.
Qed.

Lemma escapeHtml_keeps_plain_text_witness :
  _escapeHtml (JStr (dquote ++ "quoted" ++ dquote)) = dquote ++ "quoted" ++ dquote.
Proof.
  exact (escapeHtml_keeps_plain_text (dquote ++ "quoted" ++ dquote) eq_refl).
Defined.

(** X3.  Escaping works piece by piece: the escaped form of a concatenation
    is the concatenation of the escaped forms. *)
Theorem escapeHtml_of_concatenation (s t : string) :
  _escapeHtml (JStr (s ++ t)) = _escapeHtml (JStr s) ++ _escapeHtml (JStr t).
Proof.
  unfold _escapeHtml, set_textContent. cbn [nullish to_string].
  induction s as [|c s IH]; [reflexivity|].
  cbn [append]. rewrite !escape_text_cons, IH. now rewrite append_assoc.
Qed.


Lemma angle_brackets_escapeHtml (v : JsVal) : angle_brackets (_escapeHtml v) = [].
Proof.
  unfold _escapeHtml, angle_brackets.
  pose proof (escape_text_no_angle_bracket (set_textContent v)) as H.
  induction H as [|c cs [H1 H2] _ IH]; [reflexivity|].
  cbn [filter].
  destruct (Ascii.eqb_spec c "<"); [contradiction|].
  destruct (Ascii.eqb_spec c ">"); [contradiction|]. exact IH.
Qed.

(** X4.  Whatever value is escaped, [null] and [undefined] included, the
    result holds no angle bracket and is at least as long as the text it
    came from. *)
Theorem escapeHtml_output_is_inert (v : JsVal) :
  angle_brackets (_escapeHtml v) = []
  /\ String.length (set_textContent v) <= String.length (_escapeHtml v).
Proof.
  split; [apply angle_brackets_escapeHtml|].
  unfold _escapeHtml. induction (set_textContent v) as [|c s IH]; [cbn; lia|].
  rewrite escape_text_cons.
  destruct (escape_char_cases c) as [[_ E]|[[_ E]|[[_ E]|[[_ E]|[_ E]]]]];
    rewrite E; cbn [append String.length]; lia.
Qed.

(** ** [_showError] *)







Lemma prefix_refl_app (s t : string) : String.prefix s (s ++ t) = true.
Proof.
  induction s as [|c s IH]; cbn; [now destruct t|].
  destruct (ascii_dec c c); [exact IH | contradiction].
Qed.








(** ** [_base64ToBlob] *)

Module DecodeFacts.
Import Base64.

Lemma rev_cons2 (A : Type) (l r : list A) (c1 c2 : A) :
  rev l = c1 :: c2 :: r -> l = (rev r ++ [c2; c1])%list.
Proof.
  intros H. rewrite <- (rev_involutive l), H. cbn [rev].
  now rewrite <- app_assoc.
Qed.

Lemma strip_padding_keeps (c : ascii) (l : list ascii) :
  In c l -> Ascii.eqb c pad = false -> In c (strip_padding l).
Proof.
  intros Hin Hc. unfold strip_padding.
  destruct (Nat.eqb _ 0); [|exact Hin].
  destruct (rev l) as [|c1 [|c2 r]] eqn:E; [exact Hin| |].
  - destruct (Ascii.eqb_spec c1 pad); [|exact Hin].
    apply (f_equal (@rev ascii)) in E. rewrite rev_involutive in E. subst l.
    cbn in Hin. destruct Hin as [<- | []]. subst c1.
    rewrite Ascii.eqb_refl in Hc. discriminate Hc.
  - apply rev_cons2 in E. subst l.
    destruct (Ascii.eqb_spec c1 pad) as [-> | _]; [|exact Hin].
    apply in_app_or in Hin. destruct Hin as [Hin | [<- | [<- | []]]].
    + destruct (Ascii.eqb c2 pad); [exact Hin|].
      cbn [rev]. apply in_or_app. now left.
    + rewrite Hc. cbn [rev]. apply in_or_app. right. now left.
    + rewrite Ascii.eqb_refl in Hc. discriminate Hc.
Qed.


Lemma values_none (c : ascii) (l : list ascii) :
  In c l -> b64_value c = None -> values l = None.
Proof.
  induction l as [|x l IH]; intros Hin Hc; [destruct Hin|].
  cbn [values]. destruct Hin as [-> | Hin].
  - now rewrite Hc.
  - rewrite (IH Hin Hc). now destruct (b64_value x).
Qed.





End DecodeFacts.

(** X8.  A character that is neither of the base64 alphabet, nor [=], nor
    ASCII whitespace makes the decoding fail: [_base64ToBlob] throws the
    [InvalidCharacterError] of [atob] and builds no blob. *)
Theorem base64ToBlob_rejects_foreign_characters
  (base64 contentType : string) (c : ascii) :
  In c (list_ascii_of_string base64) ->
  base64_text_char c = false ->
  _base64ToBlob base64 contentType = Throw Base64.invalid_character.
Proof.
  intros Hin Hc. unfold base64_text_char in Hc.
  destruct (Base64.b64_value c) eqn:Hv; [discriminate Hc|].
  apply orb_false_elim in Hc as [Hp Hw].
  unfold _base64ToBlob, Base64.atob.
  set (d := Base64.strip_padding _).
  assert (Hd : In c d).
  { apply DecodeFacts.strip_padding_keeps; [|exact Hp].
    apply filter_In. split; [exact Hin | now rewrite Hw]. }
  destruct (Nat.eqb _ 1); [reflexivity|].
  now rewrite (DecodeFacts.values_none c d Hd Hv).
Qed.

Lemma base64ToBlob_rejects_foreign_characters_witness :
  _base64ToBlob "JVBE-Ri0" "application/pdf" = Throw Base64.invalid_character.
Proof.
  exact (base64ToBlob_rejects_foreign_characters "JVBE-Ri0" "application/pdf" "-"
           (or_intror (or_intror (or_intror (or_intror (or_introl eq_refl)))))
           eq_refl).
Defined.



(** X10.  ASCII whitespace inside the base64 text is ignored: a text with a
    run of tabs, line feeds, form feeds, carriage returns or spaces inserted
    anywhere decodes to the same result as the text without it. *)
Theorem base64ToBlob_ignores_whitespace (s1 ws s2 contentType : string) :
  forallb Base64.is_ascii_whitespace (list_ascii_of_string ws) = true ->
  _base64ToBlob (s1 ++ ws ++ s2) contentType = _base64ToBlob (s1 ++ s2) contentType.
Proof.
  intros Hws. unfold _base64ToBlob, Base64.atob.
  rewrite !chars_of_append, !filter_app.
  assert (E : filter (fun c => negb (Base64.is_ascii_whitespace c))
                     (list_ascii_of_string ws) = []).
  { induction (list_ascii_of_string ws) as [|c cs IH]; [reflexivity|].
    cbn [forallb] in Hws. apply andb_prop in Hws as [Hc Hcs].
    cbn [filter]. rewrite Hc. cbn [negb]. exact (IH Hcs). }
  now rewrite E.
Qed.

Lemma base64ToBlob_ignores_whitespace_witness :
  _base64ToBlob ("JVBE" ++ " " ++ "Ri0=") "application/pdf"
  = _base64ToBlob ("JVBE" ++ "Ri0=") "application/pdf".
Proof.
  exact (base64ToBlob_ignores_whitespace "JVBE" " " "Ri0=" "application/pdf" eq_refl).
Defined.

(** ** [_loadDocument] and the life of a widget *)

Lemma base64ToBlob_btoa (bytes : list byte) (contentType : string) :
  _base64ToBlob (Base64.btoa (string_of_list_byte bytes)) contentType
  = Ok (mkBlob bytes contentType).
Proof.
  unfold _base64ToBlob. rewrite Base64Facts.atob_btoa. cbn [bind].
  do 2 f_equal. unfold char_codes, string_of_list_byte.
  rewrite list_ascii_of_string_of_list_ascii, !map_map.
  rewrite (map_ext _ (fun b => b)); [apply map_id|].
  intros b. rewrite to_uint8_code. apply byte_of_ascii_of_byte.
Qed.

Lemma btoa_nonempty (b : byte) (bytes : list byte) :
  truthy (JStr (Base64.btoa (string_of_list_byte (b :: bytes)))) = true.
Proof.
  unfold Base64.btoa, string_of_list_byte.
  rewrite list_ascii_of_string_of_list_ascii. cbn [map].
  destruct bytes as [|b2 [|b3 rest]]; reflexivity.
Qed.

Section LifeFacts.

Variable JSON_parse : string -> Res JsVal.

Lemma resume_pdf_response (w : Widget) (env : Env) (bytes : list byte)
  (filename : string) :
  _loadDocument_resume JSON_parse w env (Fulfilled (pdf_response bytes filename))
  = Ok (match bytes with
        | [] => (failed_with w (pdf_response bytes filename), env)
        | _ :: _ => rendered_with w env (mkBlob bytes "application/pdf")
        end).
Proof.
  unfold _loadDocument_resume. cbn [await_response bind].
  unfold show_response, member, pdf_response.
  cbn [nullish bind get assoc String.eqb Ascii.eqb Bool.eqb or_undefined to_string].
  destruct bytes as [|b bytes]; [reflexivity|].
  rewrite btoa_nonempty. cbn [truthy andb].
  rewrite base64ToBlob_btoa. reflexivity.
Qed.

Lemma resume_keeps (w w' : Widget) (env env' : Env) (settled : Outcome) :
  _loadDocument_resume JSON_parse w env settled = Ok (w', env') ->
  isDisposed w' = isDisposed w
  /\ iframe_src (_iframe w') = iframe_src (_iframe w)
  /\ iframe_display (_iframe w') = "none"
  /\ _context w' = _context w.
Proof.
  destruct (resume_cases JSON_parse w env settled)
    as [[error [H _]] | [r [b [_ [_ [_ [_ H]]]]]]]; rewrite H.
  - intros [= <- <-]. repeat split.
  - unfold rendered_with. cbn. intros [= <- <-]. repeat split.
Qed.

Lemma resume_Widget_dispose (w : Widget) (env : Env) (settled : Outcome) :
  _loadDocument_resume JSON_parse (Widget_dispose w) env settled
  = match _loadDocument_resume JSON_parse w env settled with
    | Ok (w', env') => Ok (Widget_dispose w', env')
    | Throw e => Throw e
    end.
Proof.
  unfold _loadDocument_resume.
  destruct (await_response JSON_parse settled) as [response | e];
    cbn [bind try_catch]; [|reflexivity].
  unfold show_response. destruct (member response "success") as [success | e];
    cbn [bind try_catch]; [|reflexivity].
  destruct (truthy success && truthy (get response "pdf_data")); [|reflexivity].
  destruct (_base64ToBlob _ _) as [pdfBlob | e]; reflexivity.
Qed.

(** The step of a [Settle], in a state whose iframe has no [src]. *)
Lemma step_after_settle (s : Sys) (e : Event) :
  awaiting s = false ->
  iframe_src (_iframe (sys_widget s)) = "" ->
  let s' := step JSON_parse s e in
  awaiting s' = false
  /\ iframe_src (_iframe (sys_widget s')) = ""
  /\ sys_env s' = sys_env s
  /\ same_display (sys_widget s') (sys_widget s)
  /\ uncaught s' = uncaught s
  /\ (isDisposed (sys_widget s) = true -> isDisposed (sys_widget s') = true).
Proof.
  intros Ha Hsrc. destruct e as [settled | |]; cbn [step].
  - rewrite Ha. unfold same_display. repeat split; auto.
  - rewrite dispose_without_blob_src by assumption.
    unfold same_display. cbn.
    destruct (isDisposed (sys_widget s)) eqn:Hd; repeat split; auto.
  - unfold same_display. repeat split; auto.
Qed.

Lemma same_display_trans (w1 w2 w3 : Widget) :
  same_display w1 w2 -> same_display w2 w3 -> same_display w1 w3.
Proof.
  unfold same_display. intros (A1 & A2 & A3 & A4 & A5 & A6 & A7)
                              (B1 & B2 & B3 & B4 & B5 & B6 & B7).
  repeat split; congruence.
Qed.

Lemma run_after_settle (es : list Event) (s : Sys) :
  awaiting s = false ->
  iframe_src (_iframe (sys_widget s)) = "" ->
  sys_env (run JSON_parse s es) = sys_env s
  /\ same_display (sys_widget (run JSON_parse s es)) (sys_widget s)
  /\ uncaught (run JSON_parse s es) = uncaught s
  /\ (isDisposed (sys_widget s) = true ->
      isDisposed (sys_widget (run JSON_parse s es)) = true).
Proof.
  revert s. induction es as [|e es IH]; intros s Ha Hsrc.
  - unfold same_display. cbn. repeat split; auto.
  - cbn [run fold_left].
    destruct (step_after_settle s e Ha Hsrc) as (Ha' & Hsrc' & He & Hd & Hu & Hi).
    destruct (IH _ Ha' Hsrc') as (He' & Hd' & Hu' & Hi').
    fold (run JSON_parse (step JSON_parse s e) es) in *.
    split; [congruence|]. split; [eapply same_display_trans; eassumption|].
    split; [congruence | auto].
Qed.


End LifeFacts.

Lemma rendered_with_facts (w : Widget) (env : Env) (b : Blob) :
  let r := rendered_with w env b in
  let pdfUrl := "blob:" ++ string_of_Z (Z.of_nat (List.length (created env))) in
  iframe_display (_iframe (fst r)) = "none"
  /\ isDisposed (fst r) = isDisposed w
  /\ node (fst r) = [ChildEmbed (mkEmbed pdfUrl "application/pdf" "100%" "100%" "none")]
  /\ startsWith pdfUrl "blob:" = true
  /\ live (snd r) = (live env ++ [(pdfUrl, b)])%list
  /\ created (snd r) = (created env ++ [pdfUrl])%list
  /\ revoked (snd r) = revoked env
  /\ iframe_srcdoc (_iframe (fst r)) = ""
  /\ _errorDiv (fst r) = _errorDiv w
  /\ requests (snd r) = requests env.
Proof.
  cbv zeta. repeat split. unfold startsWith. apply (prefix_refl_app "blob:").
Qed.

(** X11.  End to end: a success envelope that carries the base64 text of a
    non-empty byte sequence is shown from a blob with exactly those bytes and
    the type [application/pdf]; for the empty sequence the payload is the
    empty string and the envelope is handled as a failure. *)
Theorem load_shows_the_bytes_sent
  (JSON_parse : string -> Res JsVal) (w : Widget) (env : Env)
  (bytes : list byte) (filename : string) :
  _loadDocument_resume JSON_parse w env (Fulfilled (pdf_response bytes filename))
  = Ok (match bytes with
        | [] => (failed_with w (pdf_response bytes filename), env)
        | _ :: _ => rendered_with w env (mkBlob bytes "application/pdf")
        end).
Proof. apply resume_pdf_response. Qed.

(** X12.  When the load of a loading widget ends, the iframe with the
    placeholder is hidden and the promise is settled.  After a success the
    node holds exactly one [embed] whose [src] is a new [blob:] URL, live in
    the store for the decoded blob; after a failure the children and the
    store are as before and the error element is shown. *)
Theorem load_end_state
  (JSON_parse : string -> Res JsVal) (w w' : Widget) (env env' : Env)
  (settled : Outcome) :
  _ready w = Pending ->
  _loadDocument_resume JSON_parse w env settled = Ok (w', env') ->
  iframe_display (_iframe w') = "none"
  /\ ready w' <> Pending
  /\ isDisposed w' = isDisposed w
  /\ ((phase w' = Rendered
       /\ exists pdfUrl pdfBlob,
            node w' = [ChildEmbed (mkEmbed pdfUrl "application/pdf" "100%" "100%" "none")]
            /\ startsWith pdfUrl "blob:" = true
            /\ live env' = (live env ++ [(pdfUrl, pdfBlob)])%list
            /\ created env' = (created env ++ [pdfUrl])%list
            /\ revoked env' = revoked env
            /\ blob_type pdfBlob = "application/pdf"
            /\ iframe_srcdoc (_iframe w') = ""
            /\ _errorDiv w' = _errorDiv w)
      \/ (phase w' = Failed
          /\ node w' = node w
          /\ env' = env
          /\ errorDiv_display (_errorDiv w') = "block"
          /\ iframe_srcdoc (_iframe w') = iframe_srcdoc (_iframe w))).
Proof.
  intros Hr H.
  destruct (resume_cases JSON_parse w env settled)
    as [[error [H' _]] | [r [b [_ [_ [_ [Hb H']]]]]]]; rewrite H' in H.
  - injection H as <- <-. destruct (phase_failed_with w error Hr) as [Hp Hq].
    unfold ready. rewrite Hq. repeat split; try discriminate.
    right. repeat split. exact Hp.
  - pose proof (phase_rendered_with w env b Hr) as Hp.
    destruct (rendered_with_facts w env b)
      as (F1 & F2 & F3 & F4 & F5 & F6 & F7 & F8 & F9 & F10).
    destruct (rendered_with w env b) as [w1 env1]. injection H as <- <-.
    cbn [fst snd] in *.
    split; [exact F1|]. split.
    { unfold ready. intros Hq. unfold phase in Hp. rewrite Hq in Hp. discriminate Hp. }
    split; [exact F2|]. left. split; [exact Hp|].
    eexists. exists b. repeat split; try eassumption.
    unfold _base64ToBlob in Hb.
    destruct (Base64.atob _); [|discriminate Hb]. cbn in Hb. now injection Hb as <-.
Qed.

Lemma load_end_state_witness :
  let w := fst (DocReaderWidget_new notes_docx_context env0) in
  let r := rendered_with w env0 (mkBlob ["%"%byte; "P"%byte; "D"%byte; "F"%byte; "-"%byte]
                                        "application/pdf") in
  iframe_display (_iframe (fst r)) = "none"
  /\ ready (fst r) <> Pending
  /\ isDisposed (fst r) = isDisposed w
  /\ ((phase (fst r) = Rendered
       /\ exists pdfUrl pdfBlob,
            node (fst r) = [ChildEmbed (mkEmbed pdfUrl "application/pdf" "100%" "100%" "none")]
            /\ startsWith pdfUrl "blob:" = true
            /\ live (snd r) = (live env0 ++ [(pdfUrl, pdfBlob)])%list
            /\ created (snd r) = (created env0 ++ [pdfUrl])%list
            /\ revoked (snd r) = revoked env0
            /\ blob_type pdfBlob = "application/pdf"
            /\ iframe_srcdoc (_iframe (fst r)) = ""
            /\ _errorDiv (fst r) = _errorDiv w)
      \/ (phase (fst r) = Failed
          /\ node (fst r) = node w
          /\ snd r = env0
          /\ errorDiv_display (_errorDiv (fst r)) = "block"
          /\ iframe_srcdoc (_iframe (fst r)) = iframe_srcdoc (_iframe w))).
Proof.
  exact (load_end_state parse_missing_docx
           (fst (DocReaderWidget_new notes_docx_context env0)) _ env0 _
           (Fulfilled notes_docx_response) eq_refl eq_refl).
Defined.

(** X13.  A close and the arrival of the response commute: in every
    execution, disposing and then settling leaves the same widget and
    environment as settling and then disposing. *)
Theorem dispose_and_settle_commute
  (JSON_parse : string -> Res JsVal) (context : Context) (env : Env)
  (es : list Event) (settled : Outcome) :
  let s := run JSON_parse (open context env) es in
  step JSON_parse (step JSON_parse s Dispose) (Settle settled)
  = step JSON_parse (step JSON_parse s (Settle settled)) Dispose.
Proof.
  cbv zeta.
  destruct (run_preserves JSON_parse context env es _ (open_invariant context env))
    as (Hsrc & _).
  set (s := run JSON_parse (open context env) es) in *.
  cbn [step]. rewrite dispose_without_blob_src by assumption.
  cbn [sys_widget sys_env awaiting uncaught].
  destruct (awaiting s) eqn:Ha.
  - destruct (isDisposed (sys_widget s)) eqn:Hd.
    + destruct (_loadDocument_resume JSON_parse (sys_widget s) (sys_env s) settled)
        as [[w' env'] | e] eqn:E.
      * destruct (resume_keeps JSON_parse _ _ _ _ _ E) as (Hd' & Hs' & _).
        cbn [sys_widget sys_env awaiting uncaught].
        rewrite dispose_without_blob_src by congruence.
        rewrite Hd', Hd. reflexivity.
      * cbn [sys_widget sys_env awaiting uncaught].
        rewrite dispose_without_blob_src by assumption. now rewrite Hd.
    + rewrite resume_Widget_dispose.
      destruct (_loadDocument_resume JSON_parse (sys_widget s) (sys_env s) settled)
        as [[w' env'] | e] eqn:E.
      * destruct (resume_keeps JSON_parse _ _ _ _ _ E) as (Hd' & Hs' & _).
        cbn [sys_widget sys_env awaiting uncaught].
        rewrite dispose_without_blob_src by congruence.
        rewrite Hd', Hd. reflexivity.
      * destruct (resume_total JSON_parse (sys_widget s) (sys_env s) settled)
          as (w' & env' & E'). congruence.
  - rewrite dispose_without_blob_src by assumption. now rewrite ?Ha.
Qed.


(** X15.  A response that arrives after the widget was closed is not
    discarded: the PDF is still decoded and shown in the disposed widget, and
    the object URL created for it stays live, unrevoked, whatever happens
    afterwards. *)
Theorem late_response_still_allocates
  (JSON_parse : string -> Res JsVal) (context : Context) (env : Env)
  (bytes : list byte) (filename : string) (after : list Event) :
  bytes <> [] ->
  let s := run JSON_parse (open context env)
               (Dispose :: Settle (Fulfilled (pdf_response bytes filename)) :: after) in
  let pdfUrl := "blob:" ++ string_of_Z (Z.of_nat (List.length (created env))) in
  isDisposed (sys_widget s) = true
  /\ phase (sys_widget s) = Rendered
  /\ node (sys_widget s)
     = [ChildEmbed (mkEmbed pdfUrl "application/pdf" "100%" "100%" "none")]
  /\ live (sys_env s) = (live env ++ [(pdfUrl, mkBlob bytes "application/pdf")])%list
  /\ revoked (sys_env s) = revoked env.
Proof.
  intros Hne. cbv zeta. destruct bytes as [|b bytes]; [contradiction|].
  change (Dispose :: Settle (Fulfilled (pdf_response (b :: bytes) filename)) :: after)
    with ([Dispose; Settle (Fulfilled (pdf_response (b :: bytes) filename))] ++ after)%list.
  unfold run. rewrite fold_left_app.
  set (s1 := fold_left (step JSON_parse)
               [Dispose; Settle (Fulfilled (pdf_response (b :: bytes) filename))]
               (open context env)).
  fold (run JSON_parse s1 after).
  assert (E : s1 = let (w, env') :=
                     rendered_with (Widget_dispose (sys_widget (open context env)))
                                   (sys_env (open context env))
                                   (mkBlob (b :: bytes) "application/pdf") in
                   mkSys w env' false []).
  { unfold s1. cbn [fold_left]. cbn [step open DocReaderWidget_new _loadDocument_request
                                      sys_widget sys_env awaiting uncaught].
    unfold dispose. cbn [isDisposed with_iframe].
    cbn [iframe_src _iframe iframe_set_srcdoc startsWith String.prefix].
    cbn [sys_widget sys_env awaiting uncaught].
    now rewrite resume_pdf_response. }
  destruct (run_after_settle JSON_parse after s1) as (He & Hd & _ & Hi).
  { rewrite E. reflexivity. }
  { rewrite E. reflexivity. }
  destruct Hd as (_ & _ & _ & _ & _ & Hnode & Hready).
  rewrite He. unfold phase. rewrite Hready, Hnode.
  split; [apply Hi; rewrite E; reflexivity|].
  rewrite E. repeat split.
Qed.

Lemma late_response_still_allocates_witness :
  let s := run parse_missing_docx (open notes_docx_context env0)
               [Dispose;
                Settle (Fulfilled (pdf_response ["%"%byte; "P"%byte; "D"%byte; "F"%byte]
                                                "notes.pdf"));
                Dispose] in
  let pdfUrl := "blob:" ++ string_of_Z (Z.of_nat (List.length (created env0))) in
  isDisposed (sys_widget s) = true
  /\ phase (sys_widget s) = Rendered
  /\ node (sys_widget s)
     = [ChildEmbed (mkEmbed pdfUrl "application/pdf" "100%" "100%" "none")]
  /\ live (sys_env s)
     = (live env0 ++ [(pdfUrl, mkBlob ["%"%byte; "P"%byte; "D"%byte; "F"%byte]
                                     "application/pdf")])%list
  /\ revoked (sys_env s) = revoked env0.
Proof.
  refine (late_response_still_allocates parse_missing_docx notes_docx_context env0
            ["%"%byte; "P"%byte; "D"%byte; "F"%byte] "notes.pdf" [Dispose] _).
  discriminate.
Defined.

(** ** [DocReaderFactory] *)



(** ** Plugin activation *)

(** X17.  After activation on an empty registry the Document Reader factory
    is the default viewer of a file type exactly when the type is [docx],
    [doc] or [rtf]; every other type has no default viewer. *)
Theorem default_viewer_for_exactly_three_types (fileType : string) :
  exists r,
    Plugin.activate (Plugin.mkRegistry [] []) = Ok r
    /\ (In fileType ["docx"; "doc"; "rtf"] ->
        Plugin.default_viewers r fileType = [Plugin.factory_options])
    /\ (~ In fileType ["docx"; "doc"; "rtf"] ->
        Plugin.default_viewers r fileType = []).
Proof.
  eexists. split; [reflexivity|].
  unfold Plugin.default_viewers, Plugin.factory_options.
  cbn -[String.eqb In].
  destruct (String.eqb_spec fileType "docx") as [->|H1]; [split; [reflexivity|]|].
  { intros H. exfalso. apply H. cbn. auto. }
  destruct (String.eqb_spec fileType "doc") as [->|H2]; [split; [reflexivity|]|].
  { intros H. exfalso. apply H. cbn. auto. }
  destruct (String.eqb_spec fileType "rtf") as [->|H3]; [split; [reflexivity|]|].
  { intros H. exfalso. apply H. cbn. auto. }
  split; [|reflexivity].
  intros [H | [H | [H | []]]]; congruence.
Qed.

(** X18.  Failed file-type registrations are swallowed: on any registry whose
    [addFileType] throws for every type, activation registers the factory on
    the registry as it was, and its result is that of [addWidgetFactory]. *)
Theorem activation_swallows_file_type_errors
  (R : Type) (ops : Plugin.DocRegistry R) (r : R) :
  (forall r' o, exists e, Plugin.addFileType r' o = Throw e) ->
  Plugin.activate r = Plugin.addWidgetFactory r Plugin.factory_options.
Proof.
  intros H. unfold Plugin.activate. f_equal.
  assert (E : forall fileType, Plugin.register_file_type r fileType = r).
  { intros ft. unfold Plugin.register_file_type.
    destruct (H r (Plugin.mkFileTypeOptions (Plugin.ft_name ft) (Plugin.ft_displayName ft)
                     (Plugin.ft_extensions ft) (Plugin.ft_mimeTypes ft))) as [e ->].
    reflexivity. }
  cbn [fold_left Plugin.FILE_TYPES]. now rewrite !E.
Qed.

Lemma activation_swallows_file_type_errors_witness :
  @Plugin.activate (list Plugin.FactoryOptions)
     (Plugin.Build_DocRegistry (list Plugin.FactoryOptions)
        (fun _ o => Throw (JStr (Plugin.opt_name o)))
        (fun r f => Ok (r ++ [f])%list)) []
  = Ok [Plugin.factory_options].
Proof.
  exact (activation_swallows_file_type_errors (list Plugin.FactoryOptions)
           (Plugin.Build_DocRegistry (list Plugin.FactoryOptions)
              (fun _ o => Throw (JStr (Plugin.opt_name o)))
              (fun r f => Ok (r ++ [f])%list)) []
           (fun _ o => ex_intro _ (JStr (Plugin.opt_name o)) eq_refl)).
Defined.

(** ** The extension of a path *)

Module ExtensionFacts.
Import Tests.

Lemma split_nonempty (sep : ascii) (s : string) : split sep s <> [].
Proof.
  destruct s as [|c s]; cbn [split]; [discriminate|].
  destruct (Ascii.eqb c sep); [discriminate|].
  destruct (split sep s); discriminate.
Qed.

Lemma split_app (sep : ascii) (a b : string) :
  split sep (a ++ String sep b) = (split sep a ++ split sep b)%list.
Proof.
  induction a as [|c a IH]; cbn [append split].
  - now rewrite Ascii.eqb_refl.
  - rewrite IH. destruct (Ascii.eqb c sep); [reflexivity|].
    pose proof (split_nonempty sep a) as Hne.
    destruct (split sep a) as [|x xs]; [contradiction | reflexivity].
Qed.

Lemma split_without_separator (sep : ascii) (s : string) :
  ~ In sep (list_ascii_of_string s) -> split sep s = [s].
Proof.
  induction s as [|c s IH]; cbn [split list_ascii_of_string]; [reflexivity|].
  intros H. destruct (Ascii.eqb_spec c sep) as [-> | _].
  - exfalso. apply H. now left.
  - rewrite IH; [reflexivity|]. intros Hin. apply H. now right.
Qed.

Lemma split_pieces (sep : ascii) (s : string) :
  Forall (fun piece => ~ In sep (list_ascii_of_string piece)) (split sep s).
Proof.
  induction s as [|c s IH]; cbn [split].
  - constructor; [intros []|constructor].
  - destruct (Ascii.eqb_spec c sep) as [-> | Hc].
    + constructor; [intros []|exact IH].
    + destruct (split sep s) as [|x xs].
      * constructor; [|constructor]. cbn. intros [H | []]. congruence.
      * inversion_clear IH as [|? ? Hx Hxs]. constructor; [|exact Hxs].
        cbn. intros [H | H]; [congruence | contradiction].
Qed.

Lemma pop_app (l1 l2 : list string) : l2 <> [] -> pop (l1 ++ l2) = pop l2.
Proof.
  intros H. induction l1 as [|x l1 IH]; [reflexivity|].
  cbn [app pop]. rewrite IH.
  destruct (l1 ++ l2)%list eqn:E; [|reflexivity].
  apply app_eq_nil in E. destruct E as [_ E]. contradiction.
Qed.

Lemma pop_in (l : list string) : l <> [] -> exists x, pop l = Some x /\ In x l.
Proof.
  induction l as [|x l IH]; [contradiction|]. intros _.
  destruct l as [|y l]; [exists x; cbn; auto|].
  destruct IH as [z [Hz Hin]]; [discriminate|].
  exists z. split; [exact Hz | now right].
Qed.

Lemma lower_char_idempotent (c : ascii) : lower_char (lower_char c) = lower_char c.
Proof. destruct c as [[] [] [] [] [] [] [] []]; reflexivity. Qed.

Lemma lower_char_dot (c : ascii) : lower_char c = "."%char -> c = "."%char.
Proof. destruct c as [[] [] [] [] [] [] [] []]; cbn; intros H; congruence. Qed.

Lemma toLowerCase_idempotent (s : string) : toLowerCase (toLowerCase s) = toLowerCase s.
Proof.
  induction s as [|c s IH]; cbn; [reflexivity|].
  now rewrite lower_char_idempotent, IH.
Qed.

Lemma toLowerCase_no_dot (s : string) :
  ~ In "."%char (list_ascii_of_string s) ->
  ~ In "."%char (list_ascii_of_string (toLowerCase s)).
Proof.
  induction s as [|c s IH]; cbn; [auto|].
  intros H [Hc | Hin].
  - apply H. left. now apply lower_char_dot.
  - apply IH; auto.
Qed.

End ExtensionFacts.

(** X19.  Splitting on a character and joining with it gives the text
    back. *)
Theorem split_then_join (sep : ascii) (s : string) :
  join (String sep "") (Tests.split sep s) = s.
Proof.
  induction s as [|c s IH]; [reflexivity|]. cbn [Tests.split].
  pose proof (ExtensionFacts.split_nonempty sep s) as Hne.
  destruct (Ascii.eqb_spec c sep) as [-> | _].
  - destruct (Tests.split sep s) as [|x xs]; [contradiction|].
    change (join (String sep "") ("" :: x :: xs))
      with (String sep (join (String sep "") (x :: xs))).
    now rewrite IH.
  - destruct (Tests.split sep s) as [|x xs]; [contradiction|].
    destruct xs as [|y ys]; [cbn [join] in *; now rewrite IH|].
    change (join (String sep "") (String c x :: y :: ys))
      with (String c (join (String sep "") (x :: y :: ys))).
    now rewrite IH.
Qed.

(** X20.  The extension computed for a path is always defined, holds no dot
    and is in lower case (lowering it again changes nothing). *)
Theorem extension_is_defined_and_normalised (path : string) :
  exists ext,
    Tests.extension path = Some ext
    /\ ~ In "."%char (list_ascii_of_string ext)
    /\ Tests.toLowerCase ext = ext.
Proof.
  unfold Tests.extension.
  destruct (ExtensionFacts.pop_in (Tests.split "." path)
              (ExtensionFacts.split_nonempty "." path)) as [x [Hx Hin]].
  rewrite Hx. cbn [option_map]. eexists. split; [reflexivity|]. split.
  - apply ExtensionFacts.toLowerCase_no_dot.
    pose proof (ExtensionFacts.split_pieces "." path) as Hall.
    rewrite Forall_forall in Hall. now apply Hall.
  - apply ExtensionFacts.toLowerCase_idempotent.
Qed.

(** X21.  For a path that ends in a dot followed by a text without dots,
    the extension is that text in lower case, whatever precedes the dot. *)
Theorem extension_of_dotted_path (base ext : string) :
  ~ In "."%char (list_ascii_of_string ext) ->
  Tests.extension (base ++ String "." ext) = Some (Tests.toLowerCase ext).
Proof.
  intros H. unfold Tests.extension.
  rewrite ExtensionFacts.split_app, ExtensionFacts.pop_app
    by apply ExtensionFacts.split_nonempty.
  now rewrite (ExtensionFacts.split_without_separator "." ext H).
Qed.

Lemma extension_of_dotted_path_witness :
  Tests.extension ("/path/to/PRESENTATION" ++ String "." "PPTX") = Some (Tests.toLowerCase "PPTX").
Proof.
  refine (extension_of_dotted_path "/path/to/PRESENTATION" "PPTX" _).
  cbn. intros [H | [H | [H | [H | []]]]]; discriminate H.
Defined.

(** X22.  A path without any dot has no extension to cut off: the result is
    the whole path in lower case. *)
Theorem extension_of_undotted_path (path : string) :
  ~ In "."%char (list_ascii_of_string path) ->
  Tests.extension path = Some (Tests.toLowerCase path).
Proof.
  intros H. unfold Tests.extension.
  now rewrite (ExtensionFacts.split_without_separator "." path H).
Qed.

Lemma extension_of_undotted_path_witness :
  Tests.extension "README" = Some (Tests.toLowerCase "README").
Proof.
  refine (extension_of_undotted_path "README" _).
  cbn. intros [H | [H | [H | [H | [H | [H | []]]]]]]; discriminate H.
Defined.

(** ** The path lines of the debug block *)


